(** * StorageManager: namespace resolution and adapter registry

    A shallow embedding of [cdm/storage/storage_manager.py] (the Python
    object model of CDM) and the properties of its path resolver, its
    namespace registry and its configuration import and export. *)

From stdpp Require Import gmap strings list.
From Stdlib Require Import ZArith Lia Ascii String.

Local Open Scope Z_scope.
Local Open Scope string_scope.

(** ** Python strings

    [str] values are [string]s; the operations below are the ones the
    storage manager uses, with Python's conventions ([find] answers [-1],
    a negative index counts from the end, indexing out of range fails). *)

Module Py.

(** [s.startswith(pre)] *)
Fixpoint startswith (s pre : string) : bool :=
  match pre, s with
  | EmptyString, _ => true
  | String _ _, EmptyString => false
  | String a pre', String b s' => Ascii.eqb a b && startswith s' pre'
  end.

(** [sub in s] *)
Fixpoint str_in (sub s : string) : bool :=
  startswith s sub ||
  match s with
  | EmptyString => false
  | String _ s' => str_in sub s'
  end.

(** [s.find(c)] for a one-character needle *)
Fixpoint find (s : string) (c : ascii) : Z :=
  match s with
  | EmptyString => -1
  | String b s' =>
      if Ascii.eqb b c then 0
      else let r := find s' c in if (r =? -1)%Z then -1 else r + 1
  end.

Fixpoint drop (n : nat) (s : string) : string :=
  match n, s with
  | O, _ => s
  | S _, EmptyString => EmptyString
  | S n', String _ s' => drop n' s'
  end.

Fixpoint take (n : nat) (s : string) : string :=
  match n, s with
  | O, _ => EmptyString
  | S _, EmptyString => EmptyString
  | S n', String a s' => String a (take n' s')
  end.

Definition len (s : string) : Z := Z.of_nat (String.length s).

(** a slice bound, clamped the way Python clamps it *)
Definition bound (s : string) (i : Z) : nat :=
  if (i <? 0)%Z then Z.to_nat (Z.max 0 (len s + i)) else Z.to_nat i.

(** [s[i:]] *)
Definition slice_from (s : string) (i : Z) : string := drop (bound s i) s.

(** [s[i:j]] *)
Definition slice (s : string) (i j : Z) : string :=
  take (bound s j - bound s i)%nat (drop (bound s i) s).

(** [s[i]]; [None] stands for IndexError *)
Definition getitem (s : string) (i : Z) : option ascii :=
  if (0 <=? i)%Z then String.get (Z.to_nat i) s
  else if (0 <=? len s + i)%Z then String.get (Z.to_nat (len s + i)) s
  else None.

(** the one-character string holding a double quote *)
Definition dquote : string := String (ascii_of_nat 34) EmptyString.

(** truth value of an [Optional[str]] *)
Definition truthy (o : option string) : bool :=
  match o with
  | Some (String _ _) => true
  | _ => false
  end.

(** [a or b] on [Optional[str]] operands *)
Definition or_ (a b : option string) : option string :=
  if truthy a then a else b.

(** a character [c] that does not occur in [s] *)
Fixpoint absent (c : ascii) (s : string) : Prop :=
  match s with
  | EmptyString => True
  | String b s' => b <> c /\ absent c s'
  end.

(** ['{}'.format(o)]; also the string of an [Optional[str]] that is one *)
Definition format (o : option string) : string :=
  match o with
  | Some s => s
  | None => "None"
  end.

End Py.

(** ** Failures and the log *)

Inductive exn := IndexError | TypeError | AttributeError.

Inductive result (A : Type) :=
| Ok (a : A)
| Raise (e : exn).
Arguments Ok {A} a.
Arguments Raise {A} e.

(** what [self._ctx.logger] has received *)
Inductive LogEntry :=
| LogError (message : string) (arg : option string)
| LogWarning (message : string) (arg : option string).

(** ** The objects the manager works with *)

(** A folder or a document: what the resolver reads of a container. *)
Record CdmFolderDefinition := {
  name : string;
  namespace : option string;
  folder_path : option string
}.

(** A context object either exposes [namespace] and [folder_path] itself,
    or is reached through its [in_document]. *)
Inductive CdmObject :=
| Container (fd : CdmFolderDefinition)
| Member (in_document : option CdmFolderDefinition).

(** A storage adapter, as far as the manager calls it.  [fetch_config]
    is what a call [adapter.fetch_config()] returns now. *)
Module Adapter.
Record StorageAdapterBase := {
  _type : string;
  create_corpus_path : string -> option string;
  create_adapter_path : string -> option string;
  fetch_config : option string
}.
End Adapter.
Abbreviation StorageAdapterBase := Adapter.StorageAdapterBase.

(** JSON values, as [json.loads] builds them. *)
#[warnings="-register-all"]
Inductive json :=
| JNull
| JBool (b : bool)
| JNum (n : Z)
| JStr (s : string)
| JArr (l : list json)
| JObj (d : list (string * json)).

(** truth value of a decoded JSON value *)
Definition json_truthy (j : json) : bool :=
  match j with
  | JNull => false
  | JBool b => b
  | JNum n => negb (n =? 0)%Z
  | JStr s => Py.truthy (Some s)
  | JArr l => match l with [] => false | _ => true end
  | JObj d => match d with [] => false | _ => true end
  end.

(** [Optional[str]] as a JSON value *)
Definition json_of_str (o : option string) : json :=
  match o with
  | Some s => JStr s
  | None => JNull
  end.

(** ** Insertion-ordered dictionaries ([OrderedDict], [dict]) *)

Module OrderedDict.
Section ops.
Context {V : Type}.

(** [d.get(k)] *)
Fixpoint get (k : string) (d : list (string * V)) : option V :=
  match d with
  | [] => None
  | (k', v) :: d' => if String.eqb k k' then Some v else get k d'
  end.

(** [k in d] *)
Definition contains (k : string) (d : list (string * V)) : bool :=
  match get k d with Some _ => true | None => false end.

(** [d[k] = v]: a present key keeps its place, a new one goes last *)
Fixpoint set (k : string) (v : V) (d : list (string * V)) : list (string * V) :=
  match d with
  | [] => [(k, v)]
  | (k', v') :: d' =>
      if String.eqb k k' then (k', v) :: d' else (k', v') :: set k v d'
  end.

(** [d.pop(k, None)], the value dropped *)
Definition pop (k : string) (d : list (string * V)) : list (string * V) :=
  List.filter (fun kv => negb (String.eqb k kv.1)) d.

Definition keys (d : list (string * V)) : list string := map fst d.

End ops.
End OrderedDict.

(** ** What the manager gets from outside

    The concrete adapters of [cdm.storage] and the [json] module are
    collaborators of the manager.  The decoder is typed by what it is
    applied to: a configuration document follows the wire format
    ([namespace] and [type] are strings where present), an adapter's own
    blob is a JSON object. *)

Record AdapterItem := {
  item_namespace : option string;
  item_config : option json;
  item_type : option string
}.

Record ConfigDocument := {
  appId : option string;
  defaultNamespace : option string;
  adapters : list AdapterItem
}.

Class Collaborators := {
  (** [LocalAdapter(root=os.getcwd())] *)
  LocalAdapter : StorageAdapterBase;
  (** [GithubAdapter()] *)
  GithubAdapter : StorageAdapterBase;
  (** [ResourceAdapter()] *)
  ResourceAdapter : StorageAdapterBase;
  (** [getattr(importlib.import_module('cdm.storage'), class_name)()] *)
  new_adapter : string -> StorageAdapterBase;
  (** the adapter after [adapter.update_config(blob)] *)
  update_config : StorageAdapterBase -> string -> StorageAdapterBase;
  (** [json.loads] of a configuration document *)
  json_loads_document : string -> ConfigDocument;
  (** [json.loads] of an adapter's configuration blob *)
  json_loads_object : string -> list (string * json);
  (** [json.dumps] *)
  json_dumps : json -> string;
  (** [json.dumps] of one entry of a configuration document *)
  json_dumps_item : AdapterItem -> string
}.

(** ** The storage manager *)

Record StorageManager := {
  default_namespace : option string;
  (** [self._corpus.app_id] *)
  app_id : option string;
  (** [self._ctx.logger], oldest entry first *)
  logger : list LogEntry;
  _namespace_adapters : list (string * StorageAdapterBase);
  _namespace_folders : list (string * CdmFolderDefinition);
  _system_defined_namespaces : gset string
}.

Definition _registered_adapter_types : gmap string string :=
  <["local" := "LocalAdapter"]>
  (<["adls" := "ADLSAdapter"]>
  (<["remote" := "RemoteAdapter"]>
  (<["github" := "GithubAdapter"]> ∅))).

(** A method call: it may raise, and it leaves a manager behind. *)
Definition M (A : Type) : Type := StorageManager -> result A * StorageManager.

Definition ret {A} (a : A) : M A := fun self => (Ok a, self).

Definition raise {A} (e : exn) : M A := fun self => (Raise e, self).

Definition bind {A B} (m : M A) (k : A -> M B) : M B :=
  fun self =>
    match m self with
    | (Ok a, self') => k a self'
    | (Raise e, self') => (Raise e, self')
    end.

Notation "'let*' x ':=' m 'in' k" := (bind m (fun x => k))
  (at level 10, x pattern, m at level 100, k at level 200).

Definition set_logger (l : list LogEntry) (self : StorageManager) : StorageManager :=
  {| default_namespace := default_namespace self;
     app_id := app_id self;
     logger := l;
     _namespace_adapters := _namespace_adapters self;
     _namespace_folders := _namespace_folders self;
     _system_defined_namespaces := _system_defined_namespaces self |}.

(** [self._ctx.logger.error(message, arg)] *)
Definition log_error (message : string) (arg : option string)
    (self : StorageManager) : StorageManager :=
  set_logger (logger self ++ [LogError message arg]) self.

(** [self._ctx.logger.warning(message, arg)] *)
Definition log_warning (message : string) (arg : option string)
    (self : StorageManager) : StorageManager :=
  set_logger (logger self ++ [LogWarning message arg]) self.

Definition error (message : string) (arg : option string) : M unit :=
  fun self => (Ok tt, log_error message arg self).

Definition warning (message : string) (arg : option string) : M unit :=
  fun self => (Ok tt, log_warning message arg self).

Definition read {A} (f : StorageManager -> A) : M A :=
  fun self => (Ok (f self), self).

Section storage_manager.
Context {env : Collaborators}.

(** *** Path validation and splitting *)

(** which rule of [_contains_unsupported_path_format] fires, if any *)
Definition status_message (path : string) : option string :=
  if Py.startswith path "./" || Py.startswith path ".\" then
    Some "The path should not start with ./"
  else if Py.str_in "../" path || Py.str_in "..\" path then
    Some "The path should not contain ../"
  else if Py.str_in "/./" path || Py.str_in "\.\" path then
    Some "The path should not contain /./"
  else None.

Definition _contains_unsupported_path_format (path : string) : M bool :=
  match status_message path with
  | None => ret false
  | Some message =>
      let* _ := error message (Some path) in
      ret true
  end.

Definition split_namespace_path (object_path : string) : string * string :=
  let namespace_index := Py.find object_path ":" in
  if negb (namespace_index =? -1)%Z then
    (Py.slice object_path 0 namespace_index,
     Py.slice_from object_path (namespace_index + 1))
  else ("", object_path).

(** *** Absolute and relative corpus paths *)

(** ['{}:{}'.format(final_namespace, path) if final_namespace else path] *)
Definition with_namespace (final_namespace : option string) (path : string) : string :=
  if Py.truthy final_namespace then Py.format final_namespace +:+ ":" +:+ path
  else path.

(** [a != b] for a [str] and an [Optional[str]] *)
Definition differs (a : string) (b : option string) : bool :=
  match b with
  | Some b' => negb (String.eqb a b')
  | None => true
  end.

Definition create_absolute_corpus_path (object_path : string)
    (obj : option CdmObject) : M (option string) :=
  let* malformed := _contains_unsupported_path_format object_path in
  if malformed : bool then ret None else
  let path_tuple := split_namespace_path object_path in
  let* (prefix, namespace_from_obj) :=
    match obj with
    | Some (Container fd) => ret (folder_path fd, namespace fd)
    | Some (Member (Some doc)) => ret (folder_path doc, namespace doc)
    | Some (Member None) => raise AttributeError
    | None => ret (None, None)
    end in
  let* malformed :=
    if Py.truthy prefix
    then _contains_unsupported_path_format (Py.format prefix)
    else ret false in
  if malformed : bool then ret None else
  let* prefix :=
    if Py.truthy prefix &&
       negb (bool_decide (Py.getitem (Py.format prefix) (-1) = Some "/"%char))
    then
      let* _ := warning "Expected path prefix to end in /, but it didn't. Appended the /" prefix in
      ret (Some (Py.format prefix +:+ "/"))
    else ret prefix in
  match Py.getitem path_tuple.2 0 with
  | None => raise IndexError
  | Some first =>
      if negb (Ascii.eqb first "/") then
        let prefix := match obj with None => Some "/" | Some _ => prefix end in
        if Py.truthy (Some path_tuple.1) && differs path_tuple.1 namespace_from_obj then
          let* _ := warning ("The namespace " +:+ Py.dquote +:+ path_tuple.1 +:+ Py.dquote +:+
                     " found on the path does not match the namespace found on the object") None in
          ret None
        else
          match prefix with
          | None => raise TypeError
          | Some prefix =>
              let path_tuple := (path_tuple.1, prefix +:+ path_tuple.2) in
              let* default := read default_namespace in
              let final_namespace :=
                Py.or_ (Py.or_ namespace_from_obj (Some path_tuple.1)) default in
              ret (Some (with_namespace final_namespace path_tuple.2))
          end
      else
        let* default := read default_namespace in
        let final_namespace :=
          Py.or_ (Py.or_ (Some path_tuple.1) namespace_from_obj) default in
        ret (Some (with_namespace final_namespace path_tuple.2))
  end.

Definition create_relative_corpus_path (object_path : string)
    (relative_to : option CdmFolderDefinition) : M (option string) :=
  let* new_path := create_absolute_corpus_path object_path (Container <$> relative_to) in
  let namespace_string :=
    match relative_to with
    | Some fd =>
        if Py.truthy (namespace fd) then Py.format (namespace fd) +:+ ":" else ""
    | None => ""
    end in
  if Py.truthy (Some namespace_string) then
    match new_path with
    | None => raise AttributeError
    | Some new_path =>
        if Py.startswith new_path namespace_string then
          let new_path := Py.slice_from new_path (Py.len namespace_string) in
          match relative_to with
          | Some fd =>
              if Py.truthy (folder_path fd) &&
                 Py.startswith new_path (Py.format (folder_path fd))
              then ret (Some (Py.slice_from new_path (Py.len (Py.format (folder_path fd)))))
              else ret (Some new_path)
          | None => ret (Some new_path)
          end
        else ret (Some new_path)
    end
  else ret new_path.

(** *** The registry *)

Definition fetch_adapter (namespace : option string) (self : StorageManager)
    : option StorageAdapterBase * StorageManager :=
  match namespace with
  | Some ns =>
      match OrderedDict.get ns (_namespace_adapters self) with
      | Some adapter => (Some adapter, self)
      | None =>
          (None, log_error ("Adapter not found for the namespace '" +:+ ns +:+ "'") None self)
      end
  | None =>
      (None, log_error ("Adapter not found for the namespace '" +:+ Py.format None +:+ "'") None self)
  end.

Definition fetch_root_folder (namespace : option string) (self : StorageManager)
    : option CdmFolderDefinition * StorageManager :=
  let missing :=
    (None, log_error ("missing adapter for namespace " +:+ Py.dquote +:+
                      Py.format namespace +:+ Py.dquote)
                     (Some "fetch_root_folder") self) in
  match namespace with
  | Some ns =>
      if Py.truthy namespace then
        match OrderedDict.get ns (_namespace_folders self) with
        | Some fd => (Some fd, self)
        | None => missing
        end
      else missing
  | None => missing
  end.

Definition mount (namespace : string) (adapter : option StorageAdapterBase)
    (self : StorageManager) : StorageManager :=
  match adapter with
  | Some adapter =>
      let fd := {| name := ""; namespace := Some namespace; folder_path := Some "/" |} in
      {| default_namespace := default_namespace self;
         app_id := app_id self;
         logger := logger self;
         _namespace_adapters := OrderedDict.set namespace adapter (_namespace_adapters self);
         _namespace_folders := OrderedDict.set namespace fd (_namespace_folders self);
         _system_defined_namespaces :=
           if bool_decide (namespace ∈ _system_defined_namespaces self)
           then _system_defined_namespaces self ∖ {[namespace]}
           else _system_defined_namespaces self |}
  | None => self
  end.

Definition unmount (namespace : string) (self : StorageManager) : StorageManager :=
  let self :=
    {| default_namespace := default_namespace self;
       app_id := app_id self;
       logger := logger self;
       _namespace_adapters := OrderedDict.pop namespace (_namespace_adapters self);
       _namespace_folders := OrderedDict.pop namespace (_namespace_folders self);
       _system_defined_namespaces :=
         if bool_decide (namespace ∈ _system_defined_namespaces self)
         then _system_defined_namespaces self ∖ {[namespace]}
         else _system_defined_namespaces self |} in
  if String.eqb namespace "cdm" then mount namespace (Some ResourceAdapter) self
  else self.

(** [StorageManager(corpus)] *)
Definition __init__ : StorageManager :=
  let self :=
    {| default_namespace := None;
       app_id := None;
       logger := [];
       _namespace_adapters := [];
       _namespace_folders := [];
       _system_defined_namespaces := ∅ |} in
  let self := mount "local" (Some LocalAdapter) self in
  let self := mount "cdm" (Some GithubAdapter) self in
  {| default_namespace := default_namespace self;
     app_id := app_id self;
     logger := logger self;
     _namespace_adapters := _namespace_adapters self;
     _namespace_folders := _namespace_folders self;
     _system_defined_namespaces :=
       {["cdm"]} ∪ ({["local"]} ∪ _system_defined_namespaces self) |}.

(** *** Adapter paths *)

(** the [for] loop of [adapter_path_to_corpus_path], with its [break] *)
Fixpoint first_corpus_path (adapter_path : string)
    (items : list (string * StorageAdapterBase)) (result : option string)
    : option string :=
  match items with
  | [] => result
  | (key, value) :: items' =>
      let result := Adapter.create_corpus_path value adapter_path in
      if Py.truthy result then Some (key +:+ ":" +:+ Py.format result)
      else first_corpus_path adapter_path items' result
  end.

Definition adapter_path_to_corpus_path (adapter_path : string)
    (self : StorageManager) : option string * StorageManager :=
  let result :=
    match _namespace_adapters self with
    | [] => None
    | items => first_corpus_path adapter_path items None
    end in
  if negb (Py.truthy result) then
    (result,
     log_error ("No registered storage adapter understood the path " +:+
                Py.dquote +:+ adapter_path +:+ Py.dquote)
               (Some "adapter_path_to_corpus_path") self)
  else (result, self).

Definition corpus_path_to_adapter_path (corpus_path : string)
    (self : StorageManager) : option string * StorageManager :=
  let path_tuple := split_namespace_path corpus_path in
  let namespace := Py.or_ (Some path_tuple.1) (default_namespace self) in
  match fetch_adapter namespace self with
  | (None, self) =>
      (None, log_error ("The namespace " +:+ Py.dquote +:+ Py.format namespace +:+
                        Py.dquote +:+ " has not been registered") None self)
  | (Some namespace_adapter, self) =>
      (Adapter.create_adapter_path namespace_adapter path_tuple.2, self)
  end.

(** *** Exporting and importing the configuration *)

(** the [for] loop of [fetch_config] *)
Fixpoint fetch_config_loop (items : list (string * StorageAdapterBase))
    (adapters_array : list json) : M (list json) :=
  match items with
  | [] => ret adapters_array
  | (namespace, adapter) :: items' =>
      let* system := read _system_defined_namespaces in
      if String.eqb (Adapter._type adapter) "resource" ||
         bool_decide (namespace ∈ system)
      then fetch_config_loop items' adapters_array
      else
        let config := Adapter.fetch_config adapter in
        if negb (Py.truthy config) then
          let* _ := error "JSON config constructed by adapter is null or empty." None in
          fetch_config_loop items' adapters_array
        else
          let json_config := json_loads_object (Py.format config) in
          let json_config := OrderedDict.set "namespace" (JStr namespace) json_config in
          fetch_config_loop items' (adapters_array ++ [JObj json_config])
  end.

(** [result_config], given the adapter sequence *)
Definition result_config (self : StorageManager) (adapters_array : list json)
    : list (string * json) :=
  let result_config := [] in
  let result_config :=
    if Py.truthy (app_id self)
    then OrderedDict.set "appId" (json_of_str (app_id self)) result_config
    else result_config in
  let result_config :=
    OrderedDict.set "defaultNamespace" (json_of_str (default_namespace self)) result_config in
  OrderedDict.set "adapters" (JArr adapters_array) result_config.

Definition fetch_config : M string :=
  let* items := read _namespace_adapters in
  let* adapters_array := fetch_config_loop items [] in
  let* result_config := read (fun self => result_config self adapters_array) in
  ret (json_dumps (JObj result_config)).

Definition set_app_id (a : option string) : M unit :=
  fun self =>
    (Ok tt,
     {| default_namespace := default_namespace self;
        app_id := a;
        logger := logger self;
        _namespace_adapters := _namespace_adapters self;
        _namespace_folders := _namespace_folders self;
        _system_defined_namespaces := _system_defined_namespaces self |}).

Definition set_default_namespace (d : option string) : M unit :=
  fun self =>
    (Ok tt,
     {| default_namespace := d;
        app_id := app_id self;
        logger := logger self;
        _namespace_adapters := _namespace_adapters self;
        _namespace_folders := _namespace_folders self;
        _system_defined_namespaces := _system_defined_namespaces self |}).

(** the [for] loop of [mount_from_config] *)
Fixpoint mount_from_config_loop (items : list AdapterItem)
    (unrecognized_adapters : list string) : M (list string) :=
  match items with
  | [] => ret unrecognized_adapters
  | item :: items' =>
      if negb (Py.truthy (item_namespace item)) then
        let* _ := error "The namespace is missing for one of the adapters in the JSON config." None in
        mount_from_config_loop items' unrecognized_adapters
      else
        let namespace := Py.format (item_namespace item) in
        match item_config item with
        | Some configs =>
            if negb (json_truthy configs) then
              let* _ := error ("Missing JSON config for the namespace " +:+ namespace +:+ ".") None in
              mount_from_config_loop items' unrecognized_adapters
            else if negb (Py.truthy (item_type item)) then
              let* _ := error ("Missing type in the JSON config for the namespace " +:+ namespace +:+ ".") None in
              mount_from_config_loop items' unrecognized_adapters
            else
              match _registered_adapter_types !! Py.format (item_type item) with
              | None =>
                  mount_from_config_loop items'
                    (unrecognized_adapters ++ [json_dumps_item item])
              | Some adapter_type =>
                  let adapter := new_adapter adapter_type in
                  let adapter := update_config adapter (json_dumps configs) in
                  let* _ := (fun self => (Ok tt, mount namespace (Some adapter) self)) in
                  mount_from_config_loop items' unrecognized_adapters
              end
        | None =>
            let* _ := error ("Missing JSON config for the namespace " +:+ namespace +:+ ".") None in
            mount_from_config_loop items' unrecognized_adapters
        end
  end.

Definition mount_from_config (adapter_config : string)
    (does_return_error_list : bool) : M (option (list string)) :=
  if negb (Py.truthy (Some adapter_config)) then
    let* _ := error "Adapter config cannot be null or empty." None in
    ret None
  else
    let adapter_config_json := json_loads_document adapter_config in
    let* _ :=
      if Py.truthy (appId adapter_config_json)
      then set_app_id (appId adapter_config_json) else ret tt in
    let* _ :=
      if Py.truthy (defaultNamespace adapter_config_json)
      then set_default_namespace (defaultNamespace adapter_config_json) else ret tt in
    let* unrecognized_adapters :=
      mount_from_config_loop (adapters adapter_config_json) [] in
    ret (if does_return_error_list then Some unrecognized_adapters else None).

End storage_manager.

(** ** A concrete set of collaborators, to run the definitions *)

Module Demo.

(** an adapter that owns the adapter paths starting with [root] *)
Definition rooted (type root blob : string) : StorageAdapterBase :=
  {| Adapter._type := type;
     Adapter.create_corpus_path := fun adapter_path =>
       if Py.startswith adapter_path root
       then Some (Py.slice_from adapter_path (Py.len root))
       else None;
     Adapter.create_adapter_path := fun corpus_path => Some (root +:+ corpus_path);
     Adapter.fetch_config := Some blob |}.

(** an entry without its [type] *)
Definition broken : AdapterItem :=
  {| item_namespace := Some "broken";
     item_config := Some (JObj [("root", JStr "/b")]);
     item_type := None |}.

Definition lake : AdapterItem :=
  {| item_namespace := Some "lake";
     item_config := Some (JObj [("root", JStr "/lake")]);
     item_type := Some "adls" |}.

Definition web : AdapterItem :=
  {| item_namespace := Some "web";
     item_config := Some (JObj [("host", JStr "h")]);
     item_type := Some "remote" |}.

Definition doc : ConfigDocument :=
  {| appId := Some "app";
     defaultNamespace := Some "lake";
     adapters := [broken; lake; web] |}.

#[local] Instance env : Collaborators :=
  {| LocalAdapter := rooted "local" "/cwd" "local-blob";
     GithubAdapter := rooted "github" "https://github/" "github-blob";
     ResourceAdapter := rooted "resource" "res:" "resource-blob";
     new_adapter := fun class_name => rooted class_name "" "";
     update_config := fun adapter blob =>
       {| Adapter._type := Adapter._type adapter;
          Adapter.create_corpus_path := Adapter.create_corpus_path adapter;
          Adapter.create_adapter_path := Adapter.create_adapter_path adapter;
          Adapter.fetch_config := Some blob |};
     json_loads_document := fun _ => doc;
     json_loads_object := fun blob => [("blob", JStr blob)];
     json_dumps := fun _ => "json";
     json_dumps_item := fun item => Py.format (item_namespace item) |}.

(** the manager as its constructor leaves it *)
Definition fresh : StorageManager := __init__.

Definition data : CdmFolderDefinition :=
  {| name := "data"; namespace := Some "local"; folder_path := Some "/data/" |}.

(** the manager after the import of [doc] *)
Definition imported : StorageManager := (mount_from_config "config" true fresh).2.

(** ... and after two more mounts: a resource adapter, and an adapter
    whose blob is empty *)
Definition registry : StorageManager :=
  mount "scratch" (Some (rooted "local" "/scratch" ""))
    (mount "res" (Some ResourceAdapter) imported).

(** folders whose path lacks its closing slash, lacks its opening slash,
    or is malformed *)
Definition unclosed : CdmFolderDefinition :=
  {| name := "data"; namespace := Some "local"; folder_path := Some "/data" |}.

Definition unrooted : CdmFolderDefinition :=
  {| name := "data"; namespace := Some "local"; folder_path := Some "data/" |}.

Definition twisted : CdmFolderDefinition :=
  {| name := "b"; namespace := Some "local"; folder_path := Some "/a/../b/" |}.

(** a folder that carries no namespace *)
Definition unnamed : CdmFolderDefinition :=
  {| name := "data"; namespace := None; folder_path := Some "/data/" |}.

End Demo.

(** ** Vocabulary of the properties *)

(** the text [sub] occurs in [p] *)
Definition contains_text (sub p : string) : Prop :=
  exists pre rest, p = pre +:+ sub +:+ rest.

(** [p] starts with the text [pre] *)
Definition starts_with_text (pre p : string) : Prop :=
  exists rest, p = pre +:+ rest.

(** the first non-empty of a list of candidates, if any *)
Fixpoint first_nonempty (candidates : list (option string)) : option string :=
  match candidates with
  | [] => None
  | o :: candidates' => if Py.truthy o then o else first_nonempty candidates'
  end.

(** a folder path, closed by a slash when it lacks one *)
Definition with_slash (prefix : string) : string :=
  if bool_decide (Py.getitem prefix (-1) = Some "/"%char) then prefix
  else prefix +:+ "/".

(** the warning a folder path without its closing slash leaves behind *)
Definition slash_warned (prefix : string) (self : StorageManager) : StorageManager :=
  if bool_decide (Py.getitem prefix (-1) = Some "/"%char) then self
  else log_warning "Expected path prefix to end in /, but it didn't. Appended the /"
         (Some prefix) self.

(** a folder path the round trip can undo: empty, or from a slash to a
    closing slash *)
Definition rooted_folder (prefix : string) : bool :=
  negb (Py.truthy (Some prefix)) ||
  Py.startswith prefix "/" && bool_decide (Py.getitem prefix (-1) = Some "/"%char).

(** [create_relative_corpus_path(create_absolute_corpus_path(p, fd), fd)];
    an absolute step that answers [None] hands [None] to the relative
    step, whose validation then fails on it *)
Definition there_and_back (p : string) (fd : CdmFolderDefinition) : M (option string) :=
  let* absolute := create_absolute_corpus_path p (Some (Container fd)) in
  match absolute with
  | Some absolute => create_relative_corpus_path absolute (Some fd)
  | None => raise AttributeError
  end.

(** the registry pairs adapters and root folders, and every root folder
    carries its own namespace and the path [/] *)
Definition paired (self : StorageManager) : Prop :=
  (forall ns, is_Some (OrderedDict.get ns (_namespace_adapters self)) <->
              is_Some (OrderedDict.get ns (_namespace_folders self))) /\
  (forall ns fd, OrderedDict.get ns (_namespace_folders self) = Some fd ->
                 namespace fd = Some ns /\ folder_path fd = Some "/").

(** the calls that change the registry *)
Inductive operation :=
| Mount (namespace : string) (adapter : option StorageAdapterBase)
| Unmount (namespace : string)
| Import (adapter_config : string) (does_return_error_list : bool).

Section runs.
Context {env : Collaborators}.

Definition perform (o : operation) (self : StorageManager) : StorageManager :=
  match o with
  | Mount ns adapter => mount ns adapter self
  | Unmount ns => unmount ns self
  | Import adapter_config flag => (mount_from_config adapter_config flag self).2
  end.

(** a sequence of such calls, first call first *)
Definition run (ops : list operation) (self : StorageManager) : StorageManager :=
  fold_left (fun self o => perform o self) ops self.

(** no adapter of [items] recognizes the adapter path *)
Definition none_recognizes (adapter_path : string)
    (items : list (string * StorageAdapterBase)) : bool :=
  forallb (fun kv => negb (Py.truthy (Adapter.create_corpus_path kv.2 adapter_path))) items.

(** the root folder [mount] creates *)
Definition root_folder (ns : string) : CdmFolderDefinition :=
  {| name := ""; namespace := Some ns; folder_path := Some "/" |}.

(** an adapter [fetch_config] does not leave out for its kind or namespace *)
Definition eligible (self : StorageManager) (kv : string * StorageAdapterBase) : bool :=
  negb (String.eqb (Adapter._type kv.2) "resource") &&
  negb (bool_decide (kv.1 ∈ _system_defined_namespaces self)).

Definition has_blob (kv : string * StorageAdapterBase) : bool :=
  Py.truthy (Adapter.fetch_config kv.2).

(** the adapters that reach the exported sequence, in registry order *)
Definition exported (self : StorageManager) : list (string * StorageAdapterBase) :=
  List.filter (fun kv => eligible self kv && has_blob kv) (_namespace_adapters self).

(** the eligible adapters left out for their empty blob *)
Definition without_blob (self : StorageManager) : list (string * StorageAdapterBase) :=
  List.filter (fun kv => eligible self kv && negb (has_blob kv)) (_namespace_adapters self).

(** what [fetch_config] logs for an adapter with an empty blob *)
Definition empty_blob_error : LogEntry :=
  LogError "JSON config constructed by adapter is null or empty." None.

(** the configuration object of an adapter, its namespace put in *)
Definition export_entry (kv : string * StorageAdapterBase) : list (string * json) :=
  OrderedDict.set "namespace" (JStr kv.1)
    (json_loads_object (Py.format (Adapter.fetch_config kv.2))).

(** the three fields of an entry are there and true *)
Definition complete (item : AdapterItem) : bool :=
  Py.truthy (item_namespace item) &&
  match item_config item with Some configs => json_truthy configs | None => false end &&
  Py.truthy (item_type item).

(** the type tag of an entry is one of the four registered ones *)
Definition known_type (item : AdapterItem) : bool :=
  bool_decide (Py.format (item_type item) ∈ ["local"; "adls"; "remote"; "github"]).

(** the adapter an entry of a known type is mounted with *)
Definition adapter_of (item : AdapterItem) : StorageAdapterBase :=
  update_config
    (new_adapter (default "" (_registered_adapter_types !! Py.format (item_type item))))
    (json_dumps (default JNull (item_config item))).

End runs.

(** ** More vocabulary: contexts, logs, orders *)

(** what [create_absolute_corpus_path] reads of its context object: the
    prefix and the namespace, or nothing when the object has neither of
    its own and no document *)
Definition context (obj : option CdmObject) : option (option string * option string) :=
  match obj with
  | None => Some (None, None)
  | Some (Container fd) => Some (folder_path fd, namespace fd)
  | Some (Member (Some doc)) => Some (folder_path doc, namespace doc)
  | Some (Member None) => None
  end.

(** the prefix passes the validation it is put through (an empty or
    absent prefix is not validated) *)
Definition prefix_passes (prefix : option string) : bool :=
  negb (Py.truthy prefix) ||
  match status_message (Py.format prefix) with None => true | Some _ => false end.

(** the manager after the warning, if any, about the prefix *)
Definition prefix_warned (prefix : option string) (self : StorageManager) : StorageManager :=
  if Py.truthy prefix then slash_warned (Py.format prefix) self else self.

(** [self'] is [self] with [entries] added to the log, and nothing else
    changed *)
Definition logged (self self' : StorageManager) (entries : list LogEntry) : Prop :=
  logger self' = (logger self ++ entries)%list /\
  default_namespace self' = default_namespace self /\
  app_id self' = app_id self /\
  _namespace_adapters self' = _namespace_adapters self /\
  _namespace_folders self' = _namespace_folders self /\
  _system_defined_namespaces self' = _system_defined_namespaces self.

Definition is_warning (e : LogEntry) : Prop :=
  match e with LogWarning _ _ => True | LogError _ _ => False end.

(** [path] without the leading [prefix], when it has it and the prefix
    is not empty *)
Definition strip_prefix (prefix : option string) (path : string) : string :=
  if Py.truthy prefix && Py.startswith path (Py.format prefix)
  then Py.slice_from path (Py.len (Py.format prefix))
  else path.

(** the two maps of the registry hold the same namespaces in the same
    order, each once *)
Definition aligned (self : StorageManager) : Prop :=
  OrderedDict.keys (_namespace_adapters self) = OrderedDict.keys (_namespace_folders self) /\
  NoDup (OrderedDict.keys (_namespace_adapters self)).

(** the keys of a dictionary after [d[k] = v], from its keys before *)
Definition keys_with (k : string) (ks : list string) : list string :=
  if existsb (String.eqb k) ks then ks else (ks ++ [k])%list.

Section more_vocabulary.
Context {env : Collaborators}.

(** an entry that [mount_from_config] mounts *)
Definition mountable (item : AdapterItem) : bool := complete item && known_type item.

(** the last entry of [items] that is mounted under [ns], if any *)
Fixpoint last_mounted (ns : string) (items : list AdapterItem) : option AdapterItem :=
  match items with
  | [] => None
  | item :: items' =>
      match last_mounted ns items' with
      | Some later => Some later
      | None =>
          if mountable item && String.eqb (Py.format (item_namespace item)) ns
          then Some item else None
      end
  end.

(** the manager as [mount_from_config] enters its loop: the application
    identifier and the default namespace of the document put in, where
    the document has them *)
Definition import_start (doc : ConfigDocument) (self : StorageManager) : StorageManager :=
  {| default_namespace :=
       if Py.truthy (defaultNamespace doc) then defaultNamespace doc
       else default_namespace self;
     app_id := if Py.truthy (appId doc) then appId doc else app_id self;
     logger := logger self;
     _namespace_adapters := _namespace_adapters self;
     _namespace_folders := _namespace_folders self;
     _system_defined_namespaces := _system_defined_namespaces self |}.

(** the log entries of the loop of [mount_from_config]: one error for
    every entry that lacks a field *)
Definition skips (items : list AdapterItem) : nat :=
  List.length (List.filter (fun item => negb (complete item)) items).

End more_vocabulary.

(** ** Facts about the string operations *)

Module PyFacts.
Import Py.

Lemma app_cons a (s t : string) : String a s +:+ t = String a (s +:+ t).
Proof. reflexivity. Qed.

Lemma app_nil (t : string) : "" +:+ t = t.
Proof. reflexivity. Qed.

Lemma str_app_assoc (a b c : string) : (a +:+ b) +:+ c = a +:+ b +:+ c.
Proof.
  induction a as [|x a IH]; [reflexivity|].
  rewrite !app_cons. now rewrite IH.
Qed.

Lemma startswith_empty s : startswith s "" = true.
Proof. destruct s; reflexivity. Qed.

Lemma startswith_app pre rest : startswith (pre +:+ rest) pre = true.
Proof.
  induction pre as [|a pre IH].
  - apply startswith_empty.
  - rewrite app_cons. simpl. rewrite Ascii.eqb_refl. exact IH.
Qed.

Lemma str_in_unfold sub s :
  str_in sub s =
  startswith s sub ||
  match s with EmptyString => false | String _ s' => str_in sub s' end.
Proof. destruct s; reflexivity. Qed.

Lemma str_in_here sub rest : str_in sub (sub +:+ rest) = true.
Proof. rewrite str_in_unfold, startswith_app. reflexivity. Qed.

Lemma str_in_app sub pre rest : str_in sub (pre +:+ sub +:+ rest) = true.
Proof.
  induction pre as [|a pre IH].
  - rewrite app_nil. apply str_in_here.
  - rewrite app_cons. simpl. rewrite IH. apply orb_true_r.
Qed.

Lemma startswith_sep pat a c b :
  absent c pat -> startswith (a +:+ String c b) pat = startswith a pat.
Proof.
  revert a. induction pat as [|x pat IH]; intros a Hc.
  - now rewrite !startswith_empty.
  - destruct Hc as [Hx Hc]. destruct a as [|y a].
    + rewrite app_nil. simpl. apply Ascii.eqb_neq in Hx. now rewrite Hx.
    + rewrite app_cons. simpl. now rewrite IH.
Qed.

Lemma str_in_sep pat a c b :
  absent c pat ->
  str_in pat (a +:+ String c b) = str_in pat a || str_in pat b.
Proof.
  intros Hc. induction a as [|y a IH].
  - rewrite app_nil.
    destruct pat as [|x pat]; [reflexivity|].
    destruct Hc as [Hx _]. apply Ascii.eqb_neq in Hx.
    simpl. now rewrite Hx.
  - rewrite app_cons. cbn [str_in]. rewrite IH.
    rewrite <- app_cons, (startswith_sep _ _ _ _ Hc). now rewrite orb_assoc.
Qed.

(** a three-character pattern across the end of a folder path *)
Lemma startswith_slash x y z s p :
  y <> "/"%char ->
  (x <> "/"%char \/ startswith p (String y (String z "")) = false) ->
  startswith (s +:+ "/" +:+ p) (String x (String y (String z ""))) =
  startswith (s +:+ "/") (String x (String y (String z ""))).
Proof.
  intros Hy Hx. destruct s as [|a [|b s]]; rewrite ?app_cons, ?app_nil.
  - cbn [startswith]. destruct Hx as [Hx | Hx].
    + apply Ascii.eqb_neq in Hx. now rewrite Hx.
    + rewrite Hx. reflexivity.
  - cbn [startswith]. apply Ascii.eqb_neq in Hy. rewrite Hy. now rewrite !andb_false_r.
  - destruct s; rewrite ?app_cons, ?app_nil; cbn [startswith];
      rewrite ?startswith_empty; reflexivity.
Qed.

Lemma str_in_slash x y z s p :
  y <> "/"%char ->
  (x <> "/"%char \/ startswith p (String y (String z "")) = false) ->
  str_in (String x (String y (String z ""))) (s +:+ "/" +:+ p) =
  str_in (String x (String y (String z ""))) (s +:+ "/") ||
  str_in (String x (String y (String z ""))) p.
Proof.
  intros Hy Hx. set (pat := String x (String y (String z ""))).
  induction s as [|a s IH].
  - rewrite (str_in_unfold pat ("" +:+ "/" +:+ p)), (str_in_unfold pat ("" +:+ "/")).
    unfold pat at 1 3. rewrite (startswith_slash x y z "" p Hy Hx).
    change ("" +:+ "/" +:+ p) with (String "/" p).
    change ("" +:+ "/") with (String "/" "").
    cbv beta iota. fold pat.
    destruct (startswith "/" pat); [reflexivity|].
    cbn [orb]. rewrite (str_in_unfold pat ""). unfold pat at 2.
    cbn [startswith]. reflexivity.
  - rewrite (str_in_unfold pat (String a s +:+ "/" +:+ p)),
      (str_in_unfold pat (String a s +:+ "/")).
    unfold pat at 1 3. rewrite (startswith_slash x y z (String a s) p Hy Hx).
    change (String a s +:+ "/" +:+ p) with (String a (s +:+ "/" +:+ p)).
    change (String a s +:+ "/") with (String a (s +:+ "/")).
    cbv beta iota. fold pat. rewrite IH. now rewrite orb_assoc.
Qed.

Lemma absent_str_in c s : str_in (String c "") s = false -> absent c s.
Proof.
  induction s as [|b s IH]; intros H; [exact I|].
  rewrite str_in_unfold in H. cbn [startswith] in H.
  rewrite startswith_empty, andb_true_r in H.
  apply orb_false_elim in H as [Hb Hs]. split.
  - intros ->. now rewrite Ascii.eqb_refl in Hb.
  - now apply IH.
Qed.

Lemma len_cons a s : len (String a s) = len s + 1.
Proof. unfold len. cbn [String.length]. lia. Qed.

Lemma len_nonneg s : 0 <= len s.
Proof. unfold len. lia. Qed.

Lemma length_app (a b : string) :
  String.length (a +:+ b) = (String.length a + String.length b)%nat.
Proof.
  induction a as [|x a IH]; [reflexivity|].
  rewrite app_cons. cbn [String.length]. now rewrite IH.
Qed.

Lemma find_absent c s : absent c s -> find s c = -1.
Proof.
  induction s as [|b s IH]; intros H; [reflexivity|].
  destruct H as [Hb Hs]. cbn [find].
  apply Ascii.eqb_neq in Hb. rewrite Hb, (IH Hs). reflexivity.
Qed.

Lemma find_first c s rest : absent c s -> find (s +:+ String c rest) c = len s.
Proof.
  induction s as [|b s IH]; intros H.
  - rewrite app_nil. cbn [find]. now rewrite Ascii.eqb_refl.
  - destruct H as [Hb Hs]. rewrite app_cons. cbn [find].
    apply Ascii.eqb_neq in Hb. rewrite Hb, (IH Hs), len_cons.
    pose proof (len_nonneg s).
    destruct (Z.eqb_spec (len s) (-1)); [lia | reflexivity].
Qed.

Lemma take_app (a b : string) : take (String.length a) (a +:+ b) = a.
Proof.
  induction a as [|x a IH]; [destruct b; reflexivity|].
  rewrite app_cons. cbn [String.length take]. now rewrite IH.
Qed.

Lemma drop_app (a b : string) : drop (String.length a) (a +:+ b) = b.
Proof.
  induction a as [|x a IH]; [reflexivity|].
  rewrite app_cons. cbn [String.length drop]. exact IH.
Qed.

Lemma bound_nonneg s i : 0 <= i -> bound s i = Z.to_nat i.
Proof. intros H. unfold bound. destruct (Z.ltb_spec i 0); [lia | reflexivity]. Qed.

Lemma slice_from_app (a b : string) : slice_from (a +:+ b) (len a) = b.
Proof.
  unfold slice_from. rewrite bound_nonneg by apply len_nonneg.
  unfold len. rewrite Nat2Z.id. apply drop_app.
Qed.

Lemma get_app_end (s : string) c t :
  String.get (String.length s) (s +:+ String c t) = Some c.
Proof. induction s as [|x s IH]; [reflexivity | exact IH]. Qed.

Lemma getitem_first c s : getitem (String c s) 0 = Some c.
Proof. reflexivity. Qed.

Lemma getitem_last s c : getitem (s +:+ String c "") (-1) = Some c.
Proof.
  unfold getitem. cbn [Z.leb Z.compare].
  assert (E : len (s +:+ String c "") + -1 = len s).
  { unfold len. rewrite length_app. cbn [String.length]. lia. }
  rewrite E. pose proof (len_nonneg s).
  destruct (Z.leb_spec 0 (len s)); [|lia].
  unfold len. rewrite Nat2Z.id. apply get_app_end.
Qed.

Lemma getitem_last_inv s c :
  getitem s (-1) = Some c -> exists s', s = s' +:+ String c "".
Proof.
  assert (E : forall a t, getitem (String a t) (-1) = String.get (String.length t) (String a t)).
  { intros a t. unfold getitem. cbn [Z.leb Z.compare]. rewrite len_cons.
    pose proof (len_nonneg t). replace (len t + 1 + -1) with (len t) by lia.
    destruct (Z.leb_spec 0 (len t)); [|lia]. unfold len. now rewrite Nat2Z.id. }
  induction s as [|a s IH]; [discriminate|].
  rewrite E. destruct s as [|b s].
  - cbn. intros [= ->]. now exists "".
  - change (String.get (String.length (String b s)) (String a (String b s)))
      with (String.get (String.length s) (String b s)).
    rewrite <- E. intros H.
    destruct (IH H) as [s' ->]. now exists (String a s').
Qed.

End PyFacts.

(** ** The path resolver *)

Section path_facts.
Import Py PyFacts.

(** the two examples of the specification *)
Example split_cdm :
  split_namespace_path "cdm:/foo/schema.json" = ("cdm", "/foo/schema.json").
Proof. reflexivity. Qed.

Example split_plain : split_namespace_path "/foo/bar" = ("", "/foo/bar").
Proof. reflexivity. Qed.


Lemma check_passes p self :
  status_message p = None -> _contains_unsupported_path_format p self = (Ok false, self).
Proof. intros H. unfold _contains_unsupported_path_format. now rewrite H. Qed.

Lemma check_rejects p message self :
  status_message p = Some message ->
  _contains_unsupported_path_format p self = (Ok true, log_error message (Some p) self).
Proof. intros H. unfold _contains_unsupported_path_format. now rewrite H. Qed.

Lemma absolute_rejects p message obj self :
  status_message p = Some message ->
  create_absolute_corpus_path p obj self = (Ok None, log_error message (Some p) self).
Proof.
  intros H. unfold create_absolute_corpus_path, bind.
  now rewrite (check_rejects _ _ _ H).
Qed.

Lemma status_message_fires p :
  startswith p "./" = true \/ str_in "../" p = true \/ str_in "/./" p = true ->
  exists message, status_message p = Some message.
Proof.
  intros H. unfold status_message.
  destruct (startswith p "./" || startswith p ".\") eqn:E1; [eauto|].
  destruct (str_in "../" p || str_in "..\" p) eqn:E2; [eauto|].
  destruct (str_in "/./" p || str_in "\.\" p) eqn:E3; [eauto|].
  apply orb_false_elim in E1 as [E1 _], E2 as [E2 _], E3 as [E3 _].
  destruct H as [H | [H | H]]; congruence.
Qed.

Lemma status_message_None p :
  status_message p = None <->
  (startswith p "./" = false /\ startswith p ".\" = false) /\
  (str_in "../" p = false /\ str_in "..\" p = false) /\
  (str_in "/./" p = false /\ str_in "\.\" p = false).
Proof.
  unfold status_message.
  destruct (startswith p "./" || startswith p ".\") eqn:E1.
  { split; [discriminate|]. intros [[H1 H2] _]. rewrite H1, H2 in E1. discriminate. }
  destruct (str_in "../" p || str_in "..\" p) eqn:E2.
  { split; [discriminate|]. intros (_ & [H1 H2] & _). rewrite H1, H2 in E2. discriminate. }
  destruct (str_in "/./" p || str_in "\.\" p) eqn:E3.
  { split; [discriminate|]. intros (_ & _ & [H1 H2]). rewrite H1, H2 in E3. discriminate. }
  apply orb_false_elim in E1, E2, E3. tauto.
Qed.

(** C3, amended.  A path that starts with [./], or holds the text [../]
    or the text [/./] anywhere, is reported as malformed by the
    validation check, with an error logged, and
    [create_absolute_corpus_path] answers [None] for every context
    object, having done nothing but that check. *)
Theorem malformed_path_rejected (p : string) (self : StorageManager) :
  starts_with_text "./" p \/ contains_text "../" p \/ contains_text "/./" p ->
  exists message,
    status_message p = Some message /\
    _contains_unsupported_path_format p self =
      (Ok true, log_error message (Some p) self) /\
    forall obj,
      create_absolute_corpus_path p obj self =
        (Ok None, log_error message (Some p) self).
Proof.
  intros H.
  destruct (status_message_fires p) as [message Hm].
  { destruct H as [(rest & ->) | [(pre & rest & ->) | (pre & rest & ->)]].
    - left. apply startswith_app.
    - right; left. apply str_in_app.
    - right; right. apply str_in_app. }
  exists message. split; [exact Hm|]. split.
  - now apply check_rejects.
  - intros obj. now apply absolute_rejects.
Qed.

Lemma relative_first s :
  truthy (Some s) = true -> startswith s "/" = false ->
  exists first, getitem s 0 = Some first /\ Ascii.eqb first "/" = false.
Proof.
  destruct s as [|a s]; [discriminate|]. intros _ H.
  exists a. split; [reflexivity|].
  cbn [startswith] in H. rewrite startswith_empty, andb_true_r in H.
  apply Ascii.eqb_neq in H. apply Ascii.eqb_neq. congruence.
Qed.

Lemma with_namespace_or a b c path :
  with_namespace (or_ (or_ a b) c) path =
  with_namespace (first_nonempty [a; b; c]) path.
Proof.
  unfold with_namespace, or_. cbn [first_nonempty].
  destruct (truthy a) eqn:Ea, (truthy b) eqn:Eb, (truthy c) eqn:Ec;
    cbv iota; rewrite ?Ea, ?Eb, ?Ec; reflexivity.
Qed.

(** C2, amended.  For a path that passes validation, whose remainder is
    not empty and does not start with a slash, and whose explicit
    namespace, if any, is the one of the context object, and for a
    context object whose folder path is not empty and passes validation,
    [create_absolute_corpus_path] prepends the folder path (closed by a
    slash, with a warning, when it lacks one) and puts in front the first
    non-empty of context namespace, path namespace and default
    namespace. *)
Theorem absolute_of_relative (self : StorageManager) (p fp : string)
    (fd : CdmFolderDefinition) :
  status_message p = None ->
  truthy (Some (split_namespace_path p).2) = true ->
  startswith (split_namespace_path p).2 "/" = false ->
  differs (split_namespace_path p).1 (namespace fd) = false \/
    (split_namespace_path p).1 = "" ->
  folder_path fd = Some fp ->
  truthy (Some fp) = true ->
  status_message fp = None ->
  create_absolute_corpus_path p (Some (Container fd)) self =
    (Ok (Some (with_namespace
                 (first_nonempty [namespace fd; Some (split_namespace_path p).1;
                                  default_namespace self])
                 (with_slash fp +:+ (split_namespace_path p).2))),
     slash_warned fp self).
Proof.
  intros Hp Hne Hrel Hns Hfp Hfpne Hfpok.
  destruct (relative_first _ Hne Hrel) as (first & Hrem & Hfirst).
  unfold create_absolute_corpus_path, bind.
  rewrite (check_passes _ _ Hp). cbn [ret]. rewrite Hfp, Hfpne.
  cbn [format]. rewrite (check_passes _ _ Hfpok).
  rewrite Hrem, Hfirst. cbn [negb andb].
  assert (Hguard : truthy (Some (split_namespace_path p).1) &&
                   differs (split_namespace_path p).1 (namespace fd) = false).
  { destruct Hns as [-> | ->]; [apply andb_false_r | reflexivity]. }
  unfold with_slash, slash_warned.
  destruct (bool_decide (getitem fp (-1) = Some "/"%char)); cbn [negb andb];
    unfold warning, read, ret; rewrite Hguard; cbn [fst snd];
    now rewrite with_namespace_or.
Qed.

Lemma split_with_namespace ns rest :
  str_in ":" ns = false -> split_namespace_path (ns +:+ ":" +:+ rest) = (ns, rest).
Proof.
  intros H. apply absent_str_in in H. unfold split_namespace_path.
  change (ns +:+ ":" +:+ rest) with (ns +:+ String ":" rest).
  rewrite (find_first _ _ _ H). pose proof (len_nonneg ns).
  destruct (Z.eqb_spec (len ns) (-1)); [lia|]. cbn [negb]. f_equal.
  - unfold slice. rewrite !bound_nonneg by lia. cbn [Z.to_nat drop].
    rewrite Nat.sub_0_r. unfold len. rewrite Nat2Z.id. apply take_app.
  - change (ns +:+ String ":" rest) with (ns +:+ ":" +:+ rest).
    rewrite <- str_app_assoc.
    replace (len ns + 1) with (len (ns +:+ ":")); [apply slice_from_app|].
    unfold len. rewrite length_app. cbn [String.length]. lia.
Qed.

Lemma split_without p : str_in ":" p = false -> split_namespace_path p = ("", p).
Proof.
  intros H. apply absent_str_in in H. unfold split_namespace_path.
  now rewrite (find_absent _ _ H).
Qed.

Lemma absolute_clean ns fp p :
  status_message ns = None -> status_message fp = None -> status_message p = None ->
  rooted_folder fp = true ->
  status_message (ns +:+ ":" +:+ fp +:+ p) = None.
Proof.
  intros Hns Hfp Hp Hroot.
  apply status_message_None in Hns as ([N1 N2] & [N3 N4] & [N5 N6]).
  apply status_message_None in Hfp as ([F1 F2] & [F3 F4] & [F5 F6]).
  apply status_message_None in Hp as ([P1 P2] & [P3 P4] & [P5 P6]).
  assert (Hin : forall x y z,
             y <> "/"%char ->
             (x <> "/"%char \/ startswith p (String y (String z "")) = false) ->
             str_in (String x (String y (String z ""))) fp = false ->
             str_in (String x (String y (String z ""))) p = false ->
             str_in (String x (String y (String z ""))) (fp +:+ p) = false).
  { intros x y z Hy Hx Hf Hq. unfold rooted_folder in Hroot.
    destruct fp as [|a fp']; [now rewrite app_nil|].
    cbn [truthy negb orb] in Hroot. apply andb_prop in Hroot as [_ Hlast].
    apply bool_decide_eq_true in Hlast.
    apply getitem_last_inv in Hlast as [s Hs]. rewrite Hs in Hf |- *.
    rewrite str_app_assoc, (str_in_slash x y z s p Hy Hx), Hf, Hq. reflexivity. }
  change (ns +:+ ":" +:+ fp +:+ p) with (ns +:+ String ":" (fp +:+ p)).
  apply status_message_None.
  rewrite !startswith_sep, !str_in_sep by (cbn; intuition discriminate).
  rewrite N1, N2, N3, N4, N5, N6.
  rewrite !Hin by (assumption || (left; discriminate) || (right; assumption) || discriminate).
  auto.
Qed.

Lemma absolute_fresh self ns fp p fd :
  namespace fd = Some ns -> truthy (Some ns) = true ->
  folder_path fd = Some fp -> status_message fp = None -> rooted_folder fp = true ->
  truthy (Some p) = true -> startswith p "/" = false ->
  str_in ":" p = false -> status_message p = None ->
  create_absolute_corpus_path p (Some (Container fd)) self =
    (Ok (Some (ns +:+ ":" +:+ fp +:+ p)), self).
Proof.
  intros Hns Hnsne Hfp Hfpok Hroot Hpne Hrel Hcolon Hp.
  destruct (relative_first _ Hpne Hrel) as (first & Hget & Hfirst).
  unfold create_absolute_corpus_path, bind.
  rewrite (check_passes _ _ Hp), (split_without _ Hcolon). cbn [ret fst snd].
  rewrite Hfp, Hns, Hget, Hfirst. cbn [format negb truthy andb].
  unfold rooted_folder in Hroot. destruct fp as [|a fp'].
  - cbn [truthy andb]. unfold ret, read, with_namespace, or_.
    cbn [fst snd]. repeat (rewrite Hnsne; cbv iota). reflexivity.
  - cbn [truthy negb orb] in Hroot. apply andb_prop in Hroot as [_ Hlast].
    cbn [truthy]. rewrite (check_passes _ _ Hfpok), Hlast.
    cbn [negb andb]. unfold ret, read, with_namespace, or_.
    cbn [fst snd]. repeat (rewrite Hnsne; cbv iota). reflexivity.
Qed.

Lemma absolute_fixed self ns fp p fd :
  namespace fd = Some ns -> truthy (Some ns) = true ->
  str_in ":" ns = false -> status_message ns = None ->
  folder_path fd = Some fp -> status_message fp = None -> rooted_folder fp = true ->
  truthy (Some p) = true -> startswith p "/" = false -> status_message p = None ->
  create_absolute_corpus_path (ns +:+ ":" +:+ fp +:+ p) (Some (Container fd)) self =
    (Ok (Some (ns +:+ ":" +:+ fp +:+ p)), self).
Proof.
  intros Hns Hnsne Hnscolon Hnsok Hfp Hfpok Hroot Hpne Hrel Hp.
  destruct (relative_first _ Hpne Hrel) as (first & Hget & Hfirst).
  unfold create_absolute_corpus_path, bind.
  rewrite (check_passes _ _ (absolute_clean _ _ _ Hnsok Hfpok Hp Hroot)).
  rewrite (split_with_namespace _ _ Hnscolon). cbn [ret fst snd].
  rewrite Hfp, Hns. cbn [format].
  assert (Hsame : differs ns (Some ns) = false).
  { unfold differs. now rewrite String.eqb_refl. }
  unfold rooted_folder in Hroot. destruct fp as [|a fp'].
  - rewrite (app_nil p), Hget, Hfirst, Hsame, andb_false_r.
    cbn [truthy negb andb]. unfold ret, read, with_namespace, or_.
    cbn [fst snd]. repeat (rewrite Hnsne; cbv iota). cbn [format]. now rewrite ?app_nil.
  - cbn [truthy negb orb] in Hroot. apply andb_prop in Hroot as [Hstart Hlast].
    cbn [truthy]. rewrite (check_passes _ _ Hfpok), Hlast.
    cbn [negb andb]. cbn [startswith] in Hstart.
    apply andb_prop in Hstart as [Ha _]. apply Ascii.eqb_eq in Ha. subst a.
    rewrite app_cons, getitem_first. cbn [Ascii.eqb Bool.eqb negb andb].
    unfold ret, read, with_namespace, or_.
    cbn [fst snd]. repeat (rewrite Hnsne; cbv iota). reflexivity.
Qed.

(** C1, amended.  For a context object with a non-empty namespace that
    holds no colon and passes validation, and a folder path that passes
    validation and is empty or runs from a slash to a closing slash, and
    for a non-empty path [p] that passes validation, does not start with a
    slash and carries no namespace prefix, making [p] absolute gives
    [namespace:folder_path p], of which the folder path is a prefix, and
    making that relative again gives [p] back. *)
Theorem round_trip (self : StorageManager) (ns fp p : string)
    (fd : CdmFolderDefinition) :
  namespace fd = Some ns -> truthy (Some ns) = true ->
  str_in ":" ns = false -> status_message ns = None ->
  folder_path fd = Some fp -> status_message fp = None -> rooted_folder fp = true ->
  truthy (Some p) = true -> startswith p "/" = false ->
  str_in ":" p = false -> status_message p = None ->
  create_absolute_corpus_path p (Some (Container fd)) self =
    (Ok (Some (ns +:+ ":" +:+ fp +:+ p)), self) /\
  startswith (split_namespace_path (ns +:+ ":" +:+ fp +:+ p)).2 fp = true /\
  there_and_back p fd self = (Ok (Some p), self).
Proof.
  intros Hns Hnsne Hnscolon Hnsok Hfp Hfpok Hroot Hpne Hrel Hcolon Hp.
  assert (Habs := absolute_fresh self ns fp p fd Hns Hnsne Hfp Hfpok Hroot
                    Hpne Hrel Hcolon Hp).
  split; [exact Habs | split].
  - rewrite (split_with_namespace _ _ Hnscolon). apply startswith_app.
  - unfold there_and_back, bind. rewrite Habs.
    unfold create_relative_corpus_path, bind. cbn [fmap option_fmap option_map].
    rewrite (absolute_fixed self ns fp p fd) by assumption.
    rewrite Hns, Hnsne, Hfp. cbn [format].
    assert (Hs : truthy (Some (ns +:+ ":")) = true).
    { destruct ns; [discriminate | reflexivity]. }
    rewrite Hs, <- (str_app_assoc ns ":"), startswith_app, slice_from_app.
    rewrite startswith_app, slice_from_app, andb_true_r.
    destruct (truthy (Some fp)) eqn:E; [reflexivity|].
    destruct fp; [reflexivity | discriminate].
Qed.

(** C4.  The claim fails on the code: a path whose remainder is empty makes
    [create_absolute_corpus_path], and [create_relative_corpus_path]
    through it, raise IndexError at [path_tuple[1][0]], and a malformed
    path makes [create_relative_corpus_path] raise AttributeError on the
    [None] the absolute step answered. *)
Theorem empty_remainder_raises (self : StorageManager) :
  create_absolute_corpus_path "" None self = (Raise IndexError, self) /\
  create_absolute_corpus_path "local:" None self = (Raise IndexError, self) /\
  create_relative_corpus_path "" None self = (Raise IndexError, self) /\
  create_relative_corpus_path "../x" (Some Demo.data) self =
    (Raise AttributeError,
     log_error "The path should not contain ../" (Some "../x") self).
Proof. repeat split. Qed.

(** C3, amended, at a path with a [..] segment. *)
Lemma malformed_path_rejected_witness :
  exists message,
    status_message "docs/../x" = Some message /\
    _contains_unsupported_path_format "docs/../x" Demo.fresh =
      (Ok true, log_error message (Some "docs/../x") Demo.fresh) /\
    forall obj,
      create_absolute_corpus_path "docs/../x" obj Demo.fresh =
        (Ok None, log_error message (Some "docs/../x") Demo.fresh).
Proof.
  apply (malformed_path_rejected "docs/../x" Demo.fresh).
  right; left. exists "docs/", "x". reflexivity.
Defined.

(** C3, as stated, fails: [./] is looked for at the start of the path
    only.  A path that holds [./] further on, in neither [../] nor
    [/./], passes the validation check and is resolved; a relative
    remainder that starts with [./] behind a namespace even resolves to a
    path that holds [/./]. *)
Lemma dot_slash_elsewhere_passes :
  contains_text "./" "a./b" /\
  status_message "a./b" = None /\
  create_absolute_corpus_path "a./b" None Demo.fresh = (Ok (Some "/a./b"), Demo.fresh) /\
  contains_text "./" "local:./foo" /\
  status_message "local:./foo" = None /\
  create_absolute_corpus_path "local:./foo" (Some (Container Demo.data)) Demo.fresh =
    (Ok (Some "local:/data/./foo"), Demo.fresh).
Proof.
  repeat split.
  - exists "a", "b". reflexivity.
  - exists "local:", "foo". reflexivity.
Qed.

(** C2, as stated, fails: the path is relative and the context object has
    a folder path and a namespace, yet the namespace on the path is not
    the one of the context object and the answer is [None]; so it is for a
    context object whose folder path is malformed. *)
Lemma absolute_of_relative_mismatch :
  split_namespace_path "other:foo/bar.txt" = ("other", "foo/bar.txt") /\
  startswith "foo/bar.txt" "/" = false /\
  truthy (folder_path Demo.data) = true /\
  truthy (namespace Demo.data) = true /\
  (create_absolute_corpus_path "other:foo/bar.txt" (Some (Container Demo.data)) Demo.fresh).1 =
    Ok None /\
  (create_absolute_corpus_path "other:foo/bar.txt" (Some (Container Demo.data)) Demo.fresh).1 <>
    Ok (Some "local:/data/foo/bar.txt") /\
  (create_absolute_corpus_path "foo/bar.txt" (Some (Container Demo.twisted)) Demo.fresh).1 =
    Ok None.
Proof. repeat split. discriminate. Qed.

(** C2, amended, at the example of the specification. *)
Lemma absolute_of_relative_witness :
  create_absolute_corpus_path "foo/bar.txt" (Some (Container Demo.data)) Demo.fresh =
    (Ok (Some "local:/data/foo/bar.txt"), Demo.fresh).
Proof.
  exact (absolute_of_relative Demo.fresh "foo/bar.txt" "/data/" Demo.data
           eq_refl eq_refl eq_refl (or_intror eq_refl) eq_refl eq_refl eq_refl).
Defined.

(** C1, as stated, fails in both of the cases it singles out: with a
    context object that carries no namespace nothing is stripped, and a
    namespace prefix on [p] does not come back.  It fails as well for a
    folder path without its closing or its opening slash, prefix of the
    resolved path though it is. *)
Lemma round_trip_breaks :
  (create_absolute_corpus_path "foo" (Some (Container Demo.unnamed)) Demo.fresh).1 =
    Ok (Some "/data/foo") /\
  startswith "/data/foo" "/data/" = true /\
  (there_and_back "foo" Demo.unnamed Demo.fresh).1 = Ok (Some "/data/foo") /\
  (there_and_back "foo" Demo.unnamed Demo.fresh).1 <> Ok (Some "foo") /\
  (create_absolute_corpus_path "local:foo" (Some (Container Demo.data)) Demo.fresh).1 =
    Ok (Some "local:/data/foo") /\
  (there_and_back "local:foo" Demo.data Demo.fresh).1 = Ok (Some "foo") /\
  (there_and_back "local:foo" Demo.data Demo.fresh).1 <> Ok (Some "local:foo") /\
  (create_absolute_corpus_path "foo" (Some (Container Demo.unclosed)) Demo.fresh).1 =
    Ok (Some "local:/data/foo") /\
  (there_and_back "foo" Demo.unclosed Demo.fresh).1 = Ok (Some "/foo") /\
  (create_absolute_corpus_path "foo" (Some (Container Demo.unrooted)) Demo.fresh).1 =
    Ok (Some "local:data/foo") /\
  (there_and_back "foo" Demo.unrooted Demo.fresh).1 = Ok (Some "data/foo").
Proof. repeat split; discriminate. Qed.

(** C1, amended, at a folder of the local namespace. *)
Lemma round_trip_witness :
  create_absolute_corpus_path "foo/bar.txt" (Some (Container Demo.data)) Demo.fresh =
    (Ok (Some "local:/data/foo/bar.txt"), Demo.fresh) /\
  startswith (split_namespace_path "local:/data/foo/bar.txt").2 "/data/" = true /\
  there_and_back "foo/bar.txt" Demo.data Demo.fresh = (Ok (Some "foo/bar.txt"), Demo.fresh).
Proof.
  apply (round_trip Demo.fresh "local" "/data/" "foo/bar.txt" Demo.data);
    reflexivity.
Defined.

End path_facts.

(** ** The registry *)

Module DictFacts.
Import OrderedDict.
Section facts.
Context {V : Type}.
Implicit Types (d : list (string * V)) (k : string) (v : V).

Lemma get_set_eq k v d : get k (set k v d) = Some v.
Proof.
  induction d as [|[k' v'] d IH]; cbn [set get].
  - now rewrite String.eqb_refl.
  - destruct (String.eqb k k') eqn:E; cbn [get]; rewrite E; [reflexivity | exact IH].
Qed.

Lemma get_set_ne k k' v d : k <> k' -> get k' (set k v d) = get k' d.
Proof.
  intros Hne. induction d as [|[k0 v0] d IH]; cbn [set get].
  - apply not_eq_sym in Hne. apply String.eqb_neq in Hne. now rewrite Hne.
  - destruct (String.eqb k k0) eqn:E; cbn [get].
    + apply String.eqb_eq in E. subst k0.
      apply not_eq_sym in Hne. apply String.eqb_neq in Hne. now rewrite Hne.
    + now rewrite IH.
Qed.

Lemma get_pop_eq k d : get k (pop k d) = None.
Proof.
  induction d as [|[k' v'] d IH]; [reflexivity|].
  unfold pop. cbn [List.filter fst]. fold (pop k d).
  destruct (String.eqb k k') eqn:E; cbn [negb get]; [exact IH|].
  now rewrite E.
Qed.

Lemma get_pop_ne k k' d : k <> k' -> get k' (pop k d) = get k' d.
Proof.
  intros Hne. induction d as [|[k0 v0] d IH]; [reflexivity|].
  unfold pop. cbn [List.filter fst]. fold (pop k d).
  destruct (String.eqb k k0) eqn:E; cbn [negb get].
  - apply String.eqb_eq in E. subst k0.
    apply not_eq_sym in Hne. apply String.eqb_neq in Hne. now rewrite Hne.
  - now rewrite IH.
Qed.

Lemma set_fresh k v d : get k d = None -> set k v d = (d ++ [(k, v)])%list.
Proof.
  induction d as [|[k' v'] d IH]; cbn [set get]; [reflexivity|].
  destruct (String.eqb k k'); [discriminate|]. intros H. now rewrite IH.
Qed.

Lemma pop_set k v d : pop k (set k v d) = pop k d.
Proof.
  induction d as [|[k' v'] d IH]; cbn [set].
  - unfold pop. cbn [List.filter fst]. now rewrite String.eqb_refl.
  - destruct (String.eqb k k') eqn:E; unfold pop; cbn [List.filter fst]; rewrite E;
      cbn [negb]; [reflexivity|]. fold (pop k (set k v d)). fold (pop k d).
    now rewrite IH.
Qed.

End facts.
End DictFacts.

Section registry_facts.
Context {env : Collaborators}.
Import DictFacts.

Lemma system_after_mount ns other (X : gset string) :
  other ∈ (if bool_decide (ns ∈ X) then X ∖ {[ns]} else X) <-> other ∈ X /\ other <> ns.
Proof.
  destruct (bool_decide_reflect (ns ∈ X)) as [Hin|Hout];
    rewrite ?elem_of_difference, ?elem_of_singleton; [tauto|].
  split; [|tauto]. intros Hother. split; [exact Hother|]. now intros ->.
Qed.

(** C10.  [mount] with an absent adapter changes nothing.  With an adapter
    it leaves the default namespace, the application identifier and the
    log as they were, installs the adapter and a fresh root folder, with
    the namespace and the path [/], under that namespace, takes the
    namespace out of the system-defined set, and leaves every other
    namespace with its adapter, its root folder, its place in the order
    and its membership of the system-defined set. *)
Theorem mount_frame (ns : string) (self : StorageManager) :
  mount ns None self = self /\
  forall adapter,
    default_namespace (mount ns (Some adapter) self) = default_namespace self /\
    app_id (mount ns (Some adapter) self) = app_id self /\
    logger (mount ns (Some adapter) self) = logger self /\
    OrderedDict.get ns (_namespace_adapters (mount ns (Some adapter) self)) = Some adapter /\
    OrderedDict.get ns (_namespace_folders (mount ns (Some adapter) self)) =
      Some (root_folder ns) /\
    (ns ∉ _system_defined_namespaces (mount ns (Some adapter) self)) /\
    OrderedDict.pop ns (_namespace_adapters (mount ns (Some adapter) self)) =
      OrderedDict.pop ns (_namespace_adapters self) /\
    OrderedDict.pop ns (_namespace_folders (mount ns (Some adapter) self)) =
      OrderedDict.pop ns (_namespace_folders self) /\
    forall other, other <> ns ->
      OrderedDict.get other (_namespace_adapters (mount ns (Some adapter) self)) =
        OrderedDict.get other (_namespace_adapters self) /\
      OrderedDict.get other (_namespace_folders (mount ns (Some adapter) self)) =
        OrderedDict.get other (_namespace_folders self) /\
      (other ∈ _system_defined_namespaces (mount ns (Some adapter) self) <->
       other ∈ _system_defined_namespaces self).
Proof.
  split; [reflexivity|]. intros adapter. cbn.
  repeat split; try reflexivity.
  - apply get_set_eq.
  - apply get_set_eq.
  - rewrite system_after_mount. tauto.
  - apply pop_set.
  - apply pop_set.
  - now apply get_set_ne.
  - now apply get_set_ne.
  - rewrite system_after_mount. tauto.
  - rewrite system_after_mount. tauto.
Qed.

(** C7.  After [unmount] of a namespace other than [cdm], [fetch_adapter]
    on it answers [None] and logs that no adapter was found; after
    [unmount] of [cdm], [fetch_adapter] on it answers the resource adapter
    that [unmount] mounted in its place. *)
Theorem unmount_then_fetch (ns : string) (self : StorageManager) :
  (ns <> "cdm" ->
   fetch_adapter (Some ns) (unmount ns self) =
     (None,
      log_error ("Adapter not found for the namespace '" +:+ ns +:+ "'") None
        (unmount ns self))) /\
  fetch_adapter (Some "cdm") (unmount "cdm" self) =
    (Some ResourceAdapter, unmount "cdm" self).
Proof.
  split.
  - intros Hne. apply String.eqb_neq in Hne.
    unfold unmount. rewrite Hne. unfold fetch_adapter.
    cbn [_namespace_adapters]. now rewrite get_pop_eq.
  - unfold unmount. cbn [String.eqb Ascii.eqb Bool.eqb]. unfold fetch_adapter.
    cbn [mount _namespace_adapters]. now rewrite get_set_eq.
Qed.

Lemma paired_same self self' :
  _namespace_adapters self' = _namespace_adapters self ->
  _namespace_folders self' = _namespace_folders self ->
  paired self -> paired self'.
Proof. unfold paired. intros -> ->. tauto. Qed.

Lemma paired_mount ns adapter self : paired self -> paired (mount ns adapter self).
Proof.
  destruct adapter as [adapter|]; [|tauto].
  intros [Hboth Hroot]. split; cbn [mount _namespace_adapters _namespace_folders].
  - intros k. destruct (decide (ns = k)) as [->|Hne].
    + rewrite !get_set_eq. split; eauto.
    + rewrite !get_set_ne by assumption. apply Hboth.
  - intros k fd. destruct (decide (ns = k)) as [->|Hne].
    + rewrite get_set_eq. intros [= <-]. split; reflexivity.
    + rewrite get_set_ne by assumption. apply Hroot.
Qed.

Lemma paired_unmount ns self : paired self -> paired (unmount ns self).
Proof.
  intros [Hboth Hroot]. unfold unmount.
  match goal with |- paired (if _ then mount _ _ ?s else ?s) => assert (Hs : paired s) end.
  { split; cbn [_namespace_adapters _namespace_folders].
    - intros k. destruct (decide (ns = k)) as [->|Hne].
      + rewrite !get_pop_eq. split; intros [? [=]].
      + rewrite !get_pop_ne by assumption. apply Hboth.
    - intros k fd. destruct (decide (ns = k)) as [->|Hne].
      + now rewrite get_pop_eq.
      + rewrite get_pop_ne by assumption. apply Hroot. }
  destruct (String.eqb ns "cdm"); [now apply paired_mount | exact Hs].
Qed.

Lemma paired_import_loop items unrecognized self :
  paired self -> paired (mount_from_config_loop items unrecognized self).2.
Proof.
  revert unrecognized self.
  induction items as [|item items IH]; intros unrecognized self Hself; [exact Hself|].
  cbn [mount_from_config_loop]. unfold bind, error.
  assert (Hlog : forall message, paired (log_error message None self)).
  { intros message. now apply (paired_same self). }
  destruct (negb (Py.truthy (item_namespace item))); [now apply IH|].
  destruct (item_config item) as [configs|]; [|now apply IH].
  destruct (negb (json_truthy configs)); [now apply IH|].
  destruct (negb (Py.truthy (item_type item))); [now apply IH|].
  destruct (_registered_adapter_types !! Py.format (item_type item)); [|now apply IH].
  apply IH. now apply paired_mount.
Qed.

Lemma paired_import adapter_config flag self :
  paired self -> paired (mount_from_config adapter_config flag self).2.
Proof.
  intros Hself. unfold mount_from_config.
  destruct (negb (Py.truthy (Some adapter_config))).
  { now apply (paired_same self). }
  unfold bind.
  set (doc := json_loads_document adapter_config).
  destruct (Py.truthy (appId doc)), (Py.truthy (defaultNamespace doc));
    cbn [set_app_id set_default_namespace ret];
    match goal with
    | |- paired (let (r, self') := mount_from_config_loop ?l ?u ?s in _).2 =>
        assert (Hs : paired (mount_from_config_loop l u s).2)
          by (apply paired_import_loop; now apply (paired_same self));
        destruct (mount_from_config_loop l u s) as [[?|?] ?]; exact Hs
    end.
Qed.

Lemma paired_perform o self : paired self -> paired (perform o self).
Proof.
  destruct o; cbn [perform];
    [apply paired_mount | apply paired_unmount | apply paired_import].
Qed.

Lemma paired_run ops self : paired self -> paired (run ops self).
Proof.
  revert self. induction ops as [|o ops IH]; intros self Hself; [exact Hself|].
  apply (IH (perform o self)). now apply paired_perform.
Qed.

Lemma paired_init : paired __init__.
Proof.
  apply (paired_same (mount "cdm" (Some GithubAdapter)
                        (mount "local" (Some LocalAdapter)
                           {| default_namespace := None; app_id := None; logger := [];
                              _namespace_adapters := []; _namespace_folders := [];
                              _system_defined_namespaces := ∅ |}))); try reflexivity.
  do 2 apply paired_mount. split.
  - intros k. split; intros [? [=]].
  - intros k fd [=].
Qed.

(** C9, amended.  The manager starts with every namespace having an
    adapter exactly when it has a root folder, every root folder carrying
    its own namespace and the path [/], and every sequence of [mount],
    [unmount] and [mount_from_config] calls keeps it so.  After [mount] of
    an adapter under a non-empty namespace, [fetch_adapter] answers that
    adapter and [fetch_root_folder] a root folder with the path [/]. *)
Theorem registry_pairing :
  (forall ops, paired (run ops __init__)) /\
  (forall self ops, paired self -> paired (run ops self)) /\
  (forall self ns adapter,
     Py.truthy (Some ns) = true ->
     fetch_adapter (Some ns) (mount ns (Some adapter) self) =
       (Some adapter, mount ns (Some adapter) self) /\
     fetch_root_folder (Some ns) (mount ns (Some adapter) self) =
       (Some (root_folder ns), mount ns (Some adapter) self) /\
     folder_path (root_folder ns) = Some "/").
Proof.
  split; [|split].
  - intros ops. apply paired_run, paired_init.
  - intros self ops. apply paired_run.
  - intros self ns adapter Hns. unfold fetch_adapter, fetch_root_folder.
    rewrite Hns. cbn [mount _namespace_adapters _namespace_folders].
    rewrite !get_set_eq. repeat split.
Qed.

Lemma first_corpus_path_hit adapter_path earlier key value later translation result :
  none_recognizes adapter_path earlier = true ->
  Adapter.create_corpus_path value adapter_path = Some translation ->
  Py.truthy (Some translation) = true ->
  first_corpus_path adapter_path (earlier ++ (key, value) :: later) result =
    Some (key +:+ ":" +:+ translation).
Proof.
  intros Hearlier Hvalue Htruthy. revert result.
  induction earlier as [|[k a] earlier IH]; intros result.
  - cbn [app first_corpus_path]. now rewrite Hvalue, Htruthy.
  - cbn [none_recognizes forallb snd] in Hearlier.
    apply andb_prop in Hearlier as [Ha Hearlier]. apply negb_true_iff in Ha.
    cbn [app first_corpus_path]. rewrite Ha. now apply IH.
Qed.

Lemma first_corpus_path_miss adapter_path items result :
  none_recognizes adapter_path items = true ->
  Py.truthy result = false ->
  Py.truthy (first_corpus_path adapter_path items result) = false.
Proof.
  revert result. induction items as [|[k a] items IH]; intros result Hitems Hresult.
  - exact Hresult.
  - cbn [none_recognizes forallb snd] in Hitems.
    apply andb_prop in Hitems as [Ha Hitems]. apply negb_true_iff in Ha.
    cbn [first_corpus_path]. rewrite Ha. now apply IH.
Qed.

Lemma adapter_path_to_corpus_path_scan adapter_path self :
  adapter_path_to_corpus_path adapter_path self =
    let result := first_corpus_path adapter_path (_namespace_adapters self) None in
    if negb (Py.truthy result) then
      (result,
       log_error ("No registered storage adapter understood the path " +:+
                  Py.dquote +:+ adapter_path +:+ Py.dquote)
                 (Some "adapter_path_to_corpus_path") self)
    else (result, self).
Proof.
  unfold adapter_path_to_corpus_path. destruct (_namespace_adapters self); reflexivity.
Qed.

(** C8.  [adapter_path_to_corpus_path] answers [namespace:translation] for
    the first adapter, in the order of the registry, whose
    [create_corpus_path] gives a non-empty translation, however many
    adapters before it give none, and logs nothing; when no mounted
    adapter gives one, it logs an error and answers an empty result.  The
    order of the registry is the order of mounting: a namespace mounted
    for the first time goes last. *)
Theorem first_match_dispatch (adapter_path : string) (self : StorageManager) :
  (forall earlier key value later translation,
     _namespace_adapters self = (earlier ++ (key, value) :: later)%list ->
     none_recognizes adapter_path earlier = true ->
     Adapter.create_corpus_path value adapter_path = Some translation ->
     Py.truthy (Some translation) = true ->
     adapter_path_to_corpus_path adapter_path self =
       (Some (key +:+ ":" +:+ translation), self)) /\
  (none_recognizes adapter_path (_namespace_adapters self) = true ->
   exists result,
     Py.truthy result = false /\
     adapter_path_to_corpus_path adapter_path self =
       (result,
        log_error ("No registered storage adapter understood the path " +:+
                   Py.dquote +:+ adapter_path +:+ Py.dquote)
                  (Some "adapter_path_to_corpus_path") self)) /\
  (forall ns adapter,
     OrderedDict.get ns (_namespace_adapters self) = None ->
     _namespace_adapters (mount ns (Some adapter) self) =
       (_namespace_adapters self ++ [(ns, adapter)])%list).
Proof.
  split; [|split].
  - intros earlier key value later translation Hitems Hearlier Hvalue Htruthy.
    rewrite adapter_path_to_corpus_path_scan, Hitems.
    rewrite (first_corpus_path_hit adapter_path earlier key value later
               translation None Hearlier Hvalue Htruthy).
    cbv zeta. cbn [Py.truthy]. destruct key; reflexivity.
  - intros Hnone. rewrite adapter_path_to_corpus_path_scan. cbv zeta.
    exists (first_corpus_path adapter_path (_namespace_adapters self) None).
    rewrite (first_corpus_path_miss _ _ None Hnone eq_refl). now split.
  - intros ns adapter Hfresh. cbn [mount _namespace_adapters]. now apply set_fresh.
Qed.

Lemma set_logger_same self : set_logger (logger self) self = self.
Proof. now destruct self. Qed.

Lemma fetch_config_loop_spec items adapters_array self :
  fetch_config_loop items adapters_array self =
    (Ok (adapters_array ++
         map (fun kv => JObj (export_entry kv))
           (List.filter (fun kv => eligible self kv && has_blob kv) items))%list,
     set_logger
       (logger self ++
        map (fun _ => empty_blob_error)
          (List.filter (fun kv => eligible self kv && negb (has_blob kv)) items))
       self).
Proof.
  revert adapters_array self.
  induction items as [|[ns adapter] items IH]; intros adapters_array self.
  - cbn [fetch_config_loop List.filter map]. unfold ret.
    now rewrite !app_nil_r, set_logger_same.
  - cbn [fetch_config_loop List.filter]. unfold bind, read, error.
    assert (Hc : String.eqb (Adapter._type adapter) "resource" ||
                 bool_decide (ns ∈ _system_defined_namespaces self) =
                 negb (eligible self (ns, adapter))).
    { unfold eligible. cbn [fst snd]. now rewrite negb_andb, !negb_involutive. }
    rewrite Hc.
    change (Py.truthy (Adapter.fetch_config adapter)) with (has_blob (ns, adapter)).
    destruct (eligible self (ns, adapter)); cbn [negb andb]; [|apply IH].
    destruct (has_blob (ns, adapter)); cbn [negb map]; rewrite IH.
    + now rewrite <- app_assoc.
    + unfold log_error, set_logger. cbn. now rewrite <- app_assoc.
Qed.

(** C6.  [fetch_config] serializes a document whose adapter sequence holds,
    in the order of the registry, one object for every adapter that is
    not of the resource kind, whose namespace is not system-defined and
    whose blob is not empty, and no other; each object is the adapter's
    decoded blob with the namespace put in under [namespace]; every
    adapter left out for its empty blob alone costs one error in the log,
    and nothing else changes. *)
Theorem export_exclusion (self : StorageManager) :
  fetch_config self =
    (Ok (json_dumps
           (JObj (result_config self
                    (map (fun kv => JObj (export_entry kv)) (exported self))))),
     set_logger
       (logger self ++ map (fun _ => empty_blob_error) (without_blob self)) self) /\
  OrderedDict.get "adapters"
    (result_config self (map (fun kv => JObj (export_entry kv)) (exported self))) =
    Some (JArr (map (fun kv => JObj (export_entry kv)) (exported self))) /\
  (forall ns adapter,
     In (ns, adapter) (exported self) <->
     In (ns, adapter) (_namespace_adapters self) /\
     (ns ∉ _system_defined_namespaces self) /\
     Adapter._type adapter <> "resource" /\
     Py.truthy (Adapter.fetch_config adapter) = true) /\
  (forall ns adapter,
     In (ns, adapter) (without_blob self) <->
     In (ns, adapter) (_namespace_adapters self) /\
     (ns ∉ _system_defined_namespaces self) /\
     Adapter._type adapter <> "resource" /\
     Py.truthy (Adapter.fetch_config adapter) = false) /\
  (forall kv, OrderedDict.get "namespace" (export_entry kv) = Some (JStr kv.1)).
Proof.
  assert (Helig : forall ns adapter,
             eligible self (ns, adapter) = true <->
             (ns ∉ _system_defined_namespaces self) /\ Adapter._type adapter <> "resource").
  { intros ns adapter. unfold eligible. cbn [fst snd].
    rewrite andb_true_iff, !negb_true_iff, bool_decide_eq_false, String.eqb_neq. tauto. }
  split; [|split; [|split; [|split]]].
  - unfold fetch_config, bind, read. rewrite fetch_config_loop_spec. reflexivity.
  - unfold result_config. apply get_set_eq.
  - intros ns adapter. unfold exported. rewrite filter_In, andb_true_iff, Helig.
    unfold has_blob. cbn [snd]. tauto.
  - intros ns adapter. unfold without_blob.
    rewrite filter_In, andb_true_iff, Helig, negb_true_iff.
    unfold has_blob. cbn [snd]. tauto.
  - intros kv. apply get_set_eq.
Qed.

Lemma registered_known (type : string) :
  is_Some (_registered_adapter_types !! type) <->
  type ∈ ["local"; "adls"; "remote"; "github"].
Proof.
  unfold _registered_adapter_types.
  rewrite !lookup_insert_is_Some, lookup_empty, !elem_of_cons, elem_of_nil.
  split.
  - intros [<- | [_ [<- | [_ [<- | [_ [<- | [_ [? [=]]]]]]]]]]; tauto.
  - intros [-> | [-> | [-> | [-> | []]]]].
    + now left.
    + right. split; [discriminate | now left].
    + right. split; [discriminate|]. right. split; [discriminate | now left].
    + right. split; [discriminate|]. right. split; [discriminate|].
      right. split; [discriminate | now left].
Qed.

Lemma import_skip item rest unrecognized self :
  item_namespace item = None \/ item_config item = None \/ item_type item = None ->
  exists message,
    mount_from_config_loop (item :: rest) unrecognized self =
    mount_from_config_loop rest unrecognized (log_error message None self).
Proof.
  intros H. cbn [mount_from_config_loop]. unfold bind, error.
  destruct (Py.truthy (item_namespace item)) eqn:Ens; cbn [negb]; [|eauto].
  destruct (item_config item) as [configs|] eqn:Ecfg; [|eauto].
  destruct (json_truthy configs); cbn [negb]; [|eauto].
  destruct (Py.truthy (item_type item)) eqn:Ety; cbn [negb]; [|eauto].
  destruct H as [H | [H | H]]; [rewrite H in Ens | | rewrite H in Ety]; discriminate.
Qed.

Lemma complete_fields item :
  complete item = true ->
  Py.truthy (item_namespace item) = true /\
  (exists configs, item_config item = Some configs /\ json_truthy configs = true) /\
  Py.truthy (item_type item) = true.
Proof.
  unfold complete. intros H.
  apply andb_prop in H as [H Hty]. apply andb_prop in H as [Hns Hcfg].
  destruct (item_config item) as [configs|]; [eauto | discriminate].
Qed.

Lemma import_unrecognized item rest unrecognized self :
  complete item = true -> known_type item = false ->
  mount_from_config_loop (item :: rest) unrecognized self =
  mount_from_config_loop rest (unrecognized ++ [json_dumps_item item]) self.
Proof.
  intros Hc Hk. apply complete_fields in Hc as (Hns & (configs & Hcfg & Hct) & Hty).
  cbn [mount_from_config_loop]. rewrite Hns, Hcfg, Hct, Hty. cbn [negb].
  apply bool_decide_eq_false in Hk. rewrite <- registered_known in Hk.
  destruct (_registered_adapter_types !! Py.format (item_type item)); [|reflexivity].
  exfalso. eauto.
Qed.

Lemma import_mount item rest unrecognized self :
  complete item = true -> known_type item = true ->
  mount_from_config_loop (item :: rest) unrecognized self =
  mount_from_config_loop rest unrecognized
    (mount (Py.format (item_namespace item)) (Some (adapter_of item)) self).
Proof.
  intros Hc Hk. apply complete_fields in Hc as (Hns & (configs & Hcfg & Hct) & Hty).
  cbn [mount_from_config_loop]. rewrite Hns, Hcfg, Hct, Hty. cbn [negb].
  apply bool_decide_eq_true in Hk. rewrite <- registered_known in Hk.
  unfold adapter_of. rewrite Hcfg.
  destruct (_registered_adapter_types !! Py.format (item_type item)) as [class|];
    [reflexivity|].
  destruct Hk as [? [=]].
Qed.

Lemma import_loop_total items unrecognized self :
  exists self',
    mount_from_config_loop items unrecognized self =
    (Ok (unrecognized ++
         map json_dumps_item
           (List.filter (fun item => complete item && negb (known_type item)) items))%list,
     self').
Proof.
  revert unrecognized self.
  induction items as [|item items IH]; intros unrecognized self.
  - exists self. cbn. now rewrite app_nil_r.
  - cbn [List.filter]. destruct (complete item) eqn:Hc.
    + destruct (known_type item) eqn:Hk; cbn [negb andb].
      * rewrite (import_mount _ _ _ _ Hc Hk). apply IH.
      * rewrite (import_unrecognized _ _ _ _ Hc Hk).
        destruct (IH (unrecognized ++ [json_dumps_item item])%list self) as [self' ->].
        exists self'. cbn [map]. now rewrite <- app_assoc.
    + cbn [andb]. cbn [mount_from_config_loop]. unfold bind, error.
      unfold complete in Hc.
      destruct (Py.truthy (item_namespace item)); cbn [negb]; [|apply IH].
      destruct (item_config item) as [configs|]; [|apply IH].
      destruct (json_truthy configs); cbn [negb]; [|apply IH].
      destruct (Py.truthy (item_type item)); cbn [negb]; [discriminate | apply IH].
Qed.

Lemma import_example_loop bad first second earlier later self :
  (earlier ++ later)%list = [first; second] ->
  item_type bad = None ->
  complete first = true -> known_type first = true ->
  complete second = true -> known_type second = true ->
  exists message self',
    mount_from_config_loop (earlier ++ bad :: later) [] self = (Ok [], self') /\
    _namespace_adapters self' =
      OrderedDict.set (Py.format (item_namespace second)) (adapter_of second)
        (OrderedDict.set (Py.format (item_namespace first)) (adapter_of first)
           (_namespace_adapters self)) /\
    logger self' = (logger self ++ [LogError message None])%list.
Proof.
  intros Hsplit Hbad Hc1 Hk1 Hc2 Hk2.
  assert (Hskip : forall rest st, exists message,
             mount_from_config_loop (bad :: rest) [] st =
             mount_from_config_loop rest [] (log_error message None st)).
  { intros rest st. apply import_skip. now right; right. }
  destruct earlier as [|e1 [|e2 [|e3 earlier]]]; cbn [app] in Hsplit |- *.
  - subst later. destruct (Hskip [first; second] self) as [message ->].
    rewrite (import_mount _ _ _ _ Hc1 Hk1), (import_mount _ _ _ _ Hc2 Hk2).
    exists message. eexists. split; [reflexivity|]. split; reflexivity.
  - injection Hsplit as -> ->.
    rewrite (import_mount _ _ _ _ Hc1 Hk1).
    match goal with |- context [mount_from_config_loop (bad :: ?r) [] ?st] =>
      destruct (Hskip r st) as [message ->] end.
    rewrite (import_mount _ _ _ _ Hc2 Hk2).
    exists message. eexists. split; [reflexivity|]. split; reflexivity.
  - injection Hsplit as -> -> ->.
    rewrite (import_mount _ _ _ _ Hc1 Hk1), (import_mount _ _ _ _ Hc2 Hk2).
    match goal with |- context [mount_from_config_loop (bad :: ?r) [] ?st] =>
      destruct (Hskip r st) as [message ->] end.
    exists message. eexists. split; [reflexivity|]. split; reflexivity.
  - discriminate.
Qed.

Lemma mount_from_config_run adapter_config flag self :
  Py.truthy (Some adapter_config) = true ->
  exists self0,
    _namespace_adapters self0 = _namespace_adapters self /\
    logger self0 = logger self /\
    mount_from_config adapter_config flag self =
      (let (r, self') :=
         mount_from_config_loop (adapters (json_loads_document adapter_config)) [] self0 in
       match r with
       | Ok unrecognized => (Ok (if flag then Some unrecognized else None), self')
       | Raise e => (Raise e, self')
       end).
Proof.
  intros Hcfg. unfold mount_from_config. rewrite Hcfg. cbn [negb]. unfold bind.
  set (doc := json_loads_document adapter_config).
  destruct (Py.truthy (appId doc)), (Py.truthy (defaultNamespace doc));
    cbn [set_app_id set_default_namespace ret];
    eexists; (split; [|split; [|reflexivity]]); reflexivity.
Qed.

(** C5.  In the loop of [mount_from_config], an entry that lacks
    [namespace], [config] or [type] costs one error in the log and the
    loop goes on with the entries after it; an entry with the three
    fields and a type tag outside [local], [adls], [remote], [github] is
    added, serialized, to the unrecognized list; an entry with the three
    fields and one of these tags is mounted under its namespace.  The
    call answers the unrecognized list when the flag is set and [None]
    when it is not.  A document with an entry without [type] and two
    mountable entries leaves the registry as the two mounts leave it, two
    namespaces more when both are new, and one error more in the log. *)
Theorem import_isolation :
  (forall item rest unrecognized self,
     item_namespace item = None \/ item_config item = None \/ item_type item = None ->
     exists message,
       mount_from_config_loop (item :: rest) unrecognized self =
       mount_from_config_loop rest unrecognized (log_error message None self)) /\
  (forall item rest unrecognized self,
     complete item = true ->
     Py.format (item_type item) ∉ ["local"; "adls"; "remote"; "github"] ->
     mount_from_config_loop (item :: rest) unrecognized self =
     mount_from_config_loop rest (unrecognized ++ [json_dumps_item item]) self) /\
  (forall item rest unrecognized self,
     complete item = true ->
     Py.format (item_type item) ∈ ["local"; "adls"; "remote"; "github"] ->
     mount_from_config_loop (item :: rest) unrecognized self =
     mount_from_config_loop rest unrecognized
       (mount (Py.format (item_namespace item)) (Some (adapter_of item)) self)) /\
  (forall adapter_config flag self,
     Py.truthy (Some adapter_config) = true ->
     exists self',
       mount_from_config adapter_config flag self =
       (Ok (if flag : bool
            then Some (map json_dumps_item
                         (List.filter
                            (fun item => complete item && negb (known_type item))
                            (adapters (json_loads_document adapter_config))))
            else None),
        self')) /\
  (forall adapter_config flag self bad first second earlier later,
     Py.truthy (Some adapter_config) = true ->
     adapters (json_loads_document adapter_config) = (earlier ++ bad :: later)%list ->
     (earlier ++ later)%list = [first; second] ->
     item_type bad = None ->
     complete first = true -> known_type first = true ->
     complete second = true -> known_type second = true ->
     _namespace_adapters (mount_from_config adapter_config flag self).2 =
       OrderedDict.set (Py.format (item_namespace second)) (adapter_of second)
         (OrderedDict.set (Py.format (item_namespace first)) (adapter_of first)
            (_namespace_adapters self)) /\
     (exists message,
        logger (mount_from_config adapter_config flag self).2 =
          (logger self ++ [LogError message None])%list) /\
     (OrderedDict.get (Py.format (item_namespace first)) (_namespace_adapters self) = None ->
      OrderedDict.get (Py.format (item_namespace second)) (_namespace_adapters self) = None ->
      Py.format (item_namespace first) <> Py.format (item_namespace second) ->
      OrderedDict.keys (_namespace_adapters (mount_from_config adapter_config flag self).2) =
        (OrderedDict.keys (_namespace_adapters self) ++
         [Py.format (item_namespace first); Py.format (item_namespace second)])%list)).
Proof.
  split; [|split; [|split; [|split]]].
  - apply import_skip.
  - intros item rest unrecognized self Hc Hk. apply import_unrecognized; [exact Hc|].
    now apply bool_decide_eq_false.
  - intros item rest unrecognized self Hc Hk. apply import_mount; [exact Hc|].
    now apply bool_decide_eq_true.
  - intros adapter_config flag self Hcfg.
    destruct (mount_from_config_run adapter_config flag self Hcfg) as (self0 & _ & _ & ->).
    destruct (import_loop_total (adapters (json_loads_document adapter_config)) [] self0)
      as [self' ->].
    now exists self'.
  - intros adapter_config flag self bad first second earlier later
      Hcfg Hdoc Hsplit Hbad Hc1 Hk1 Hc2 Hk2.
    destruct (mount_from_config_run adapter_config flag self Hcfg)
      as (self0 & Hadapters & Hlogger & ->).
    destruct (import_example_loop bad first second earlier later self0
                Hsplit Hbad Hc1 Hk1 Hc2 Hk2) as (message & self' & Hloop & Ha & Hl).
    rewrite Hdoc, Hloop. cbn [snd]. rewrite Ha, Hl, Hadapters, Hlogger.
    split; [reflexivity|]. split; [now exists message|].
    intros Hfresh1 Hfresh2 Hne.
    rewrite (set_fresh _ _ _ Hfresh1), set_fresh.
    + unfold OrderedDict.keys. rewrite !map_app, <- app_assoc. reflexivity.
    + rewrite <- (set_fresh _ _ _ Hfresh1), get_set_ne by assumption. exact Hfresh2.
Qed.

End registry_facts.

(** C10, at the constructor's manager and a namespace of its own. *)
Lemma mount_frame_witness :
  OrderedDict.get "cdm"
    (_namespace_adapters (mount "lake" (Some Demo.env.(ResourceAdapter)) Demo.fresh)) =
  OrderedDict.get "cdm" (_namespace_adapters Demo.fresh).
Proof.
  refine (proj1 (proj2 (proj2 (proj2 (proj2 (proj2 (proj2 (proj2 (proj2
            (proj2 (mount_frame "lake" Demo.fresh) Demo.env.(ResourceAdapter)))))))))
            "cdm" _)).
  discriminate.
Defined.

(** C7, at the local namespace of the constructor's manager. *)
Lemma unmount_then_fetch_witness :
  fetch_adapter (Some "local") (unmount (env := Demo.env) "local" Demo.fresh) =
    (None,
     log_error "Adapter not found for the namespace 'local'" None
       (unmount (env := Demo.env) "local" Demo.fresh)).
Proof.
  refine (proj1 (unmount_then_fetch (env := Demo.env) "local" Demo.fresh) _).
  discriminate.
Defined.

(** C9, as stated, fails at the empty namespace: its adapter is found, its
    root folder is not. *)
Lemma empty_namespace_root_folder :
  (fetch_adapter (Some "") (mount "" (Some Demo.env.(LocalAdapter)) Demo.fresh)).1 =
    Some Demo.env.(LocalAdapter) /\
  (fetch_root_folder (Some "") (mount "" (Some Demo.env.(LocalAdapter)) Demo.fresh)).1 =
    None.
Proof. split; reflexivity. Qed.

(** C9, amended, at a manager that went through the three kinds of call. *)
Lemma registry_pairing_witness :
  paired (run (env := Demo.env)
            [Import "config" true; Unmount "cdm"; Mount "lake" None]
            Demo.fresh).
Proof.
  refine (proj1 (proj2 (registry_pairing (env := Demo.env))) Demo.fresh _ _).
  exact (proj1 (registry_pairing (env := Demo.env)) []).
Defined.

(** C8, at an adapter path that only the second adapter recognizes. *)
Lemma first_match_dispatch_witness :
  adapter_path_to_corpus_path "https://github/core/x.json" Demo.fresh =
    (Some "cdm:core/x.json", Demo.fresh).
Proof.
  refine (proj1 (first_match_dispatch "https://github/core/x.json" Demo.fresh)
            [("local", Demo.env.(LocalAdapter))] "cdm" Demo.env.(GithubAdapter) []
            "core/x.json" _ _ _ _); reflexivity.
Defined.

(** C5, at a document of three entries, the first without its [type]. *)
Lemma import_isolation_witness :
  OrderedDict.keys
    (_namespace_adapters (mount_from_config (env := Demo.env) "config" true Demo.fresh).2) =
  ["local"; "cdm"; "lake"; "web"].
Proof.
  refine (proj2 (proj2
            (proj2 (proj2 (proj2 (proj2 (import_isolation (env := Demo.env)))))
               "config" true Demo.fresh Demo.broken Demo.lake Demo.web
               [] [Demo.lake; Demo.web]
               eq_refl eq_refl eq_refl eq_refl eq_refl eq_refl eq_refl eq_refl))
            eq_refl eq_refl _).
  discriminate.
Defined.

(** C6, at a registry of six adapters: two system-defined, one of the
    resource kind, one with an empty blob, two that are exported. *)
Lemma export_exclusion_witness :
  In ("lake", adapter_of (env := Demo.env) Demo.lake) (_namespace_adapters Demo.registry) /\
  ("lake" ∉ _system_defined_namespaces Demo.registry) /\
  Adapter._type (adapter_of (env := Demo.env) Demo.lake) <> "resource" /\
  Py.truthy (Adapter.fetch_config (adapter_of (env := Demo.env) Demo.lake)) = true.
Proof.
  apply (proj1 (proj1 (proj2 (proj2 (export_exclusion (env := Demo.env) Demo.registry)))
                  "lake" (adapter_of (env := Demo.env) Demo.lake))).
  vm_compute. left. reflexivity.
Defined.

Example export_of_registry :
  map fst (exported Demo.registry) = ["lake"; "web"] /\
  map fst (without_blob Demo.registry) = ["scratch"] /\
  OrderedDict.keys (_namespace_adapters Demo.registry) =
    ["local"; "cdm"; "lake"; "web"; "res"; "scratch"].
Proof. vm_compute. repeat split. Qed.

(** ** Further properties of the path resolver *)

Section more_path_facts.
Import Py PyFacts.

Lemma str_in_absent c s : absent c s -> str_in (String c "") s = false.
Proof.
  induction s as [|b s IH]; intros H; [reflexivity|].
  destruct H as [Hb Hs]. rewrite str_in_unfold. cbn [startswith].
  rewrite startswith_empty, andb_true_r, (IH Hs), orb_false_r.
  apply Ascii.eqb_neq. congruence.
Qed.

Lemma first_colon c p :
  str_in (String c "") p = true ->
  exists ns rest, p = ns +:+ String c rest /\ absent c ns.
Proof.
  induction p as [|b p IH]; [discriminate|].
  rewrite str_in_unfold. cbn [startswith].
  rewrite startswith_empty, andb_true_r.
  destruct (Ascii.eqb_spec c b) as [<-|Hne].
  - intros _. exists "", p. now split.
  - cbn [orb]. intros H. destruct (IH H) as (ns & rest & -> & Hns).
    exists (String b ns), rest. split; [reflexivity|]. split; [congruence | exact Hns].
Qed.

(** [split_namespace_path] cuts at the first colon and loses nothing: a
    path with a colon is its namespace, a colon and its remainder, and
    the namespace holds no colon; a path without a colon is its own
    remainder, under the empty namespace. *)
Theorem split_rejoins (p : string) :
  (str_in ":" p = true ->
   p = (split_namespace_path p).1 +:+ ":" +:+ (split_namespace_path p).2 /\
   str_in ":" (split_namespace_path p).1 = false) /\
  (str_in ":" p = false -> split_namespace_path p = ("", p)).
Proof.
  split.
  - intros H. destruct (first_colon _ _ H) as (ns & rest & -> & Hns).
    apply str_in_absent in Hns.
    change (ns +:+ String ":" rest) with (ns +:+ ":" +:+ rest).
    rewrite (split_with_namespace _ _ Hns). now split.
  - apply split_without.
Qed.

Lemma split_rejoins_witness :
  "cdm:/core/a:b.json" =
    (split_namespace_path "cdm:/core/a:b.json").1 +:+ ":" +:+
    (split_namespace_path "cdm:/core/a:b.json").2 /\
  str_in ":" (split_namespace_path "cdm:/core/a:b.json").1 = false.
Proof. exact (proj1 (split_rejoins "cdm:/core/a:b.json") eq_refl). Defined.

(** the steps of [create_absolute_corpus_path] up to the test on the
    remainder, for a path and a prefix that pass validation *)
Lemma absolute_steps p obj prefix cns self :
  status_message p = None ->
  context obj = Some (prefix, cns) ->
  prefix_passes prefix = true ->
  create_absolute_corpus_path p obj self =
    match getitem (split_namespace_path p).2 0 with
    | None => (Raise IndexError, prefix_warned prefix self)
    | Some first =>
        if negb (Ascii.eqb first "/") then
          if truthy (Some (split_namespace_path p).1) &&
             differs (split_namespace_path p).1 cns
          then
            (Ok None,
             log_warning ("The namespace " +:+ dquote +:+ (split_namespace_path p).1 +:+
                          dquote +:+
                          " found on the path does not match the namespace found on the object")
               None (prefix_warned prefix self))
          else
            match obj, prefix with
            | None, _ =>
                (Ok (Some (with_namespace
                             (first_nonempty [cns; Some (split_namespace_path p).1;
                                              default_namespace self])
                             ("/" +:+ (split_namespace_path p).2))),
                 prefix_warned prefix self)
            | Some _, Some prefix' =>
                (Ok (Some (with_namespace
                             (first_nonempty [cns; Some (split_namespace_path p).1;
                                              default_namespace self])
                             ((if truthy prefix then with_slash prefix' else prefix') +:+
                              (split_namespace_path p).2))),
                 prefix_warned prefix self)
            | Some _, None => (Raise TypeError, prefix_warned prefix self)
            end
        else
          (Ok (Some (with_namespace
                       (first_nonempty [Some (split_namespace_path p).1; cns;
                                        default_namespace self])
                       (split_namespace_path p).2)),
           prefix_warned prefix self)
    end.
Proof.
  intros Hp Hctx Hpre.
  unfold create_absolute_corpus_path, bind.
  rewrite (check_passes _ _ Hp). cbn [ret].
  assert (Hrun :
    match obj with
    | Some (Container fd) => ret (folder_path fd, namespace fd)
    | Some (Member (Some doc)) => ret (folder_path doc, namespace doc)
    | Some (Member None) => raise AttributeError
    | None => ret (None, None)
    end self = (Ok (prefix, cns), self)).
  { destruct obj as [[fd|[doc|]]|]; cbn in Hctx; try discriminate;
      injection Hctx as <- <-; reflexivity. }
  rewrite Hrun. clear Hrun.
  unfold prefix_passes in Hpre. unfold prefix_warned, slash_warned, with_slash.
  destruct (truthy prefix) eqn:Et.
  - cbn [negb orb] in Hpre.
    destruct (status_message (format prefix)) eqn:Es; [discriminate|].
    rewrite (check_passes _ _ Es). cbn [andb].
    destruct prefix as [prefix'|]; [|discriminate]. cbn [format].
    destruct (bool_decide (getitem prefix' (-1) = Some "/"%char)); cbn [negb];
      unfold warning, ret, read;
      (destruct (getitem (split_namespace_path p).2 0) as [first|]; [|reflexivity]);
      (destruct (negb (Ascii.eqb first "/")); [|now rewrite with_namespace_or]);
      (destruct (truthy (Some (split_namespace_path p).1) &&
                 differs (split_namespace_path p).1 cns); [reflexivity|]);
      destruct obj; cbn [fst snd]; try discriminate; now rewrite with_namespace_or.
  - cbn [ret andb].
    destruct (getitem (split_namespace_path p).2 0) as [first|]; [|reflexivity].
    destruct (negb (Ascii.eqb first "/")); [|unfold read, ret; now rewrite with_namespace_or].
    destruct (truthy (Some (split_namespace_path p).1) &&
              differs (split_namespace_path p).1 cns); [reflexivity|].
    destruct obj, prefix; unfold read, ret, raise; cbn [fst snd];
      try reflexivity; now rewrite with_namespace_or.
Qed.

Lemma starts_with_slash s :
  startswith s "/" = true -> getitem s 0 = Some "/"%char.
Proof.
  destruct s as [|a s]; [discriminate|]. cbn [startswith].
  rewrite startswith_empty, andb_true_r. intros H.
  apply Ascii.eqb_eq in H. now subst a.
Qed.

Lemma absolute_rooted p obj prefix cns self :
  status_message p = None ->
  context obj = Some (prefix, cns) ->
  prefix_passes prefix = true ->
  startswith (split_namespace_path p).2 "/" = true ->
  create_absolute_corpus_path p obj self =
    (Ok (Some (with_namespace
                 (first_nonempty [Some (split_namespace_path p).1; cns;
                                  default_namespace self])
                 (split_namespace_path p).2)),
     prefix_warned prefix self).
Proof.
  intros Hp Hctx Hpre Habs.
  rewrite (absolute_steps p obj prefix cns self Hp Hctx Hpre).
  now rewrite (starts_with_slash _ Habs).
Qed.

(** A path that passes validation and whose remainder starts with a
    slash keeps its own namespace, when the context object is absent or
    gives a prefix and a namespace (its own, or those of its document)
    and the prefix is absent, empty or passes validation:
    [create_absolute_corpus_path] prepends no prefix, compares no
    namespaces, and puts in front the first non-empty of the namespace on
    the path, the namespace of the context object and the default
    namespace; the warning about a prefix without its closing slash is
    logged all the same. *)
Theorem absolute_keeps_namespace (p : string) (obj : option CdmObject)
    (prefix cns : option string) (self : StorageManager) :
  status_message p = None ->
  context obj = Some (prefix, cns) ->
  prefix_passes prefix = true ->
  startswith (split_namespace_path p).2 "/" = true ->
  create_absolute_corpus_path p obj self =
    (Ok (Some (with_namespace
                 (first_nonempty [Some (split_namespace_path p).1; cns;
                                  default_namespace self])
                 (split_namespace_path p).2)),
     prefix_warned prefix self).
Proof. apply absolute_rooted. Qed.

Lemma absolute_keeps_namespace_witness :
  create_absolute_corpus_path "cdm:/core/x.json"
    (Some (Member (Some Demo.unclosed))) Demo.fresh =
    (Ok (Some "cdm:/core/x.json"),
     log_warning "Expected path prefix to end in /, but it didn't. Appended the /"
       (Some "/data") Demo.fresh).
Proof.
  exact (absolute_keeps_namespace "cdm:/core/x.json" (Some (Member (Some Demo.unclosed)))
           (Some "/data") (Some "local") Demo.fresh eq_refl eq_refl eq_refl eq_refl).
Defined.

(** A path that passes validation, with a non-empty remainder that does
    not start with a slash and a non-empty namespace other than the
    one of its context, is refused, when the context object is absent or
    gives a prefix and a namespace and the prefix is absent, empty or
    passes validation: [create_absolute_corpus_path] logs a warning and
    answers [None].  Without a context object there is no namespace to
    agree with, so every such path with a namespace prefix is refused. *)
Theorem relative_namespace_mismatch (p : string) (obj : option CdmObject)
    (prefix cns : option string) (self : StorageManager) :
  status_message p = None ->
  context obj = Some (prefix, cns) ->
  prefix_passes prefix = true ->
  truthy (Some (split_namespace_path p).2) = true ->
  startswith (split_namespace_path p).2 "/" = false ->
  truthy (Some (split_namespace_path p).1) = true ->
  differs (split_namespace_path p).1 cns = true ->
  create_absolute_corpus_path p obj self =
    (Ok None,
     log_warning ("The namespace " +:+ dquote +:+ (split_namespace_path p).1 +:+ dquote +:+
                  " found on the path does not match the namespace found on the object")
       None (prefix_warned prefix self)) /\
  (obj = None ->
   create_absolute_corpus_path p None self =
     (Ok None,
      log_warning ("The namespace " +:+ dquote +:+ (split_namespace_path p).1 +:+ dquote +:+
                   " found on the path does not match the namespace found on the object")
        None self)).
Proof.
  intros Hp Hctx Hpre Hne Hrel Hns Hdiff.
  destruct (relative_first _ Hne Hrel) as (first & Hget & Hfirst).
  assert (E := absolute_steps p obj prefix cns self Hp Hctx Hpre).
  rewrite Hget, Hfirst, Hns, Hdiff in E. cbn [negb andb] in E.
  split; [exact E|]. intros ->. injection Hctx as <- <-. exact E.
Qed.

Lemma relative_namespace_mismatch_witness :
  create_absolute_corpus_path "cdm:core/x.json" None Demo.fresh =
    (Ok None,
     log_warning ("The namespace " +:+ dquote +:+ "cdm" +:+ dquote +:+
                  " found on the path does not match the namespace found on the object")
       None Demo.fresh).
Proof.
  exact (proj2 (relative_namespace_mismatch "cdm:core/x.json" None None None Demo.fresh
                  eq_refl eq_refl eq_refl eq_refl eq_refl eq_refl eq_refl) eq_refl).
Defined.

(** Without a context object a relative path with no namespace prefix is
    put under the root: the answer is [/] and the path, behind the
    default namespace when there is one, and nothing is logged. *)
Theorem absolute_without_context (p : string) (self : StorageManager) :
  status_message p = None ->
  str_in ":" p = false ->
  truthy (Some p) = true ->
  startswith p "/" = false ->
  create_absolute_corpus_path p None self =
    (Ok (Some (with_namespace (default_namespace self) ("/" +:+ p))), self).
Proof.
  intros Hp Hcolon Hne Hrel.
  destruct (relative_first _ Hne Hrel) as (first & Hget & Hfirst).
  rewrite (absolute_steps p None None None self Hp eq_refl eq_refl).
  rewrite (split_without _ Hcolon). cbn [fst snd].
  rewrite Hget, Hfirst. cbn [negb truthy andb first_nonempty prefix_warned].
  unfold with_namespace.
  destruct (truthy (default_namespace self)) eqn:E; now rewrite ?E.
Qed.

Lemma absolute_without_context_witness :
  create_absolute_corpus_path "core/x.json" None Demo.imported =
    (Ok (Some "lake:/core/x.json"), Demo.imported).
Proof.
  exact (absolute_without_context "core/x.json" Demo.imported
           eq_refl eq_refl eq_refl eq_refl).
Defined.

Lemma logged_same self : logged self self [].
Proof. unfold logged. now rewrite app_nil_r. Qed.

Lemma logged_warning self self' entries message arg :
  logged self self' entries ->
  logged self (log_warning message arg self') (entries ++ [LogWarning message arg]).
Proof.
  intros (Hl & Hrest). split; [|exact Hrest].
  cbn. now rewrite Hl, app_assoc.
Qed.

Lemma logged_error self self' entries message arg :
  logged self self' entries ->
  logged self (log_error message arg self') (entries ++ [LogError message arg]).
Proof.
  intros (Hl & Hrest). split; [|exact Hrest].
  cbn. now rewrite Hl, app_assoc.
Qed.

Lemma logged_prefix_warned prefix self :
  exists entries,
    logged self (prefix_warned prefix self) entries /\ Forall is_warning entries.
Proof.
  unfold prefix_warned, slash_warned.
  destruct (truthy prefix);
    [destruct (bool_decide (getitem (format prefix) (-1) = Some "/"%char))|].
  - exists []. split; [apply logged_same | constructor].
  - eexists. split; [apply (logged_warning self self []), logged_same|].
    repeat constructor.
  - exists []. split; [apply logged_same | constructor].
Qed.

Lemma absolute_bad_prefix p obj prefix cns message self :
  status_message p = None ->
  context obj = Some (prefix, cns) ->
  truthy prefix = true ->
  status_message (format prefix) = Some message ->
  create_absolute_corpus_path p obj self =
    (Ok None, log_error message (Some (format prefix)) self).
Proof.
  intros Hp Hctx Ht Hm. unfold create_absolute_corpus_path, bind.
  rewrite (check_passes _ _ Hp). cbn [ret].
  destruct obj as [[fd|[doc|]]|]; cbn in Hctx; try discriminate;
    injection Hctx as <- <-; cbn [ret]; try discriminate;
    now rewrite Ht, (check_rejects _ _ _ Hm).
Qed.

Lemma relative_state p relative_to self :
  (create_relative_corpus_path p relative_to self).2 =
  (create_absolute_corpus_path p (Container <$> relative_to) self).2.
Proof.
  unfold create_relative_corpus_path, bind.
  destruct (create_absolute_corpus_path p (Container <$> relative_to) self)
    as [[new_path|e] self']; [|reflexivity].
  cbn [snd].
  repeat match goal with
         | |- context [match ?x with _ => _ end] => destruct x
         end; reflexivity.
Qed.

(** [create_absolute_corpus_path] changes nothing of the manager but its
    log, and it never fails in silence: an answer [None] comes with at
    least one new log entry, while an answer that is a path comes with
    warnings only.  [create_relative_corpus_path] leaves the manager as
    its absolute step leaves it. *)
Theorem absolute_only_logs (p : string) (obj : option CdmObject) (self : StorageManager) :
  exists entries,
    logged self (create_absolute_corpus_path p obj self).2 entries /\
    ((create_absolute_corpus_path p obj self).1 = Ok None -> entries <> []) /\
    (forall absolute,
       (create_absolute_corpus_path p obj self).1 = Ok (Some absolute) ->
       Forall is_warning entries) /\
    (forall relative_to,
       obj = Container <$> relative_to ->
       logged self (create_relative_corpus_path p relative_to self).2 entries).
Proof.
  enough (H : exists entries,
             logged self (create_absolute_corpus_path p obj self).2 entries /\
             ((create_absolute_corpus_path p obj self).1 = Ok None -> entries <> []) /\
             (forall absolute,
                (create_absolute_corpus_path p obj self).1 = Ok (Some absolute) ->
                Forall is_warning entries)).
  { destruct H as (entries & Hl & Hnone & Hsome). exists entries.
    split; [exact Hl|]. split; [exact Hnone|]. split; [exact Hsome|].
    intros relative_to ->. rewrite relative_state. exact Hl. }
  destruct (status_message p) as [message|] eqn:Hp.
  { rewrite (absolute_rejects p message obj self Hp). cbn [fst snd].
    eexists. split; [apply (logged_error self self []), logged_same|].
    split; [discriminate|]. intros absolute [=]. }
  destruct (context obj) as [[prefix cns]|] eqn:Hctx.
  2:{ destruct obj as [[fd|[doc|]]|]; try discriminate.
      unfold create_absolute_corpus_path, bind. rewrite (check_passes _ _ Hp).
      cbn [ret raise fst snd]. exists []. split; [apply logged_same|].
      split; [discriminate|]. intros absolute [=]. }
  destruct (prefix_passes prefix) eqn:Hpre.
  2:{ unfold prefix_passes in Hpre. apply orb_false_elim in Hpre as [Ht Hm].
      apply negb_false_iff in Ht.
      destruct (status_message (format prefix)) as [message|] eqn:Em; [|discriminate].
      rewrite (absolute_bad_prefix p obj prefix cns message self Hp Hctx Ht Em).
      cbn [fst snd]. eexists. split; [apply (logged_error self self []), logged_same|].
      split; [discriminate|]. intros absolute [=]. }
  rewrite (absolute_steps p obj prefix cns self Hp Hctx Hpre).
  destruct (logged_prefix_warned prefix self) as (entries & Hlogged & Hwarn).
  destruct (getitem (split_namespace_path p).2 0) as [first|].
  2:{ exists entries. cbn [fst snd]. split; [exact Hlogged|].
      split; [discriminate|]. intros absolute [=]. }
  destruct (negb (Ascii.eqb first "/")).
  2:{ exists entries. cbn [fst snd]. split; [exact Hlogged|]. split; [discriminate|]. auto. }
  destruct (truthy (Some (split_namespace_path p).1) &&
            differs (split_namespace_path p).1 cns).
  { eexists. cbn [fst snd]. split; [apply logged_warning, Hlogged|].
    split; [now destruct entries | intros absolute [=]]. }
  destruct obj as [o|]; [destruct prefix as [prefix'|]|];
    exists entries; cbn [fst snd]; (split; [exact Hlogged|]);
    (split; [discriminate|]); auto; intros absolute [=].
Qed.

Lemma absolute_only_logs_witness :
  exists entries,
    logged Demo.fresh (create_absolute_corpus_path "cdm:core/x.json" None Demo.fresh).2
      entries /\
    entries <> [].
Proof.
  destruct (absolute_only_logs "cdm:core/x.json" None Demo.fresh)
    as (entries & Hl & Hnone & _).
  exists entries. split; [exact Hl | exact (Hnone eq_refl)].
Defined.

Lemma split_shape p :
  (str_in ":" p = false /\ split_namespace_path p = ("", p)) \/
  (p = (split_namespace_path p).1 +:+ ":" +:+ (split_namespace_path p).2 /\
   str_in ":" (split_namespace_path p).1 = false).
Proof.
  destruct (str_in ":" p) eqn:E.
  - right. destruct (first_colon _ _ E) as (ns & rest & -> & Hns).
    apply str_in_absent in Hns.
    change (ns +:+ String ":" rest) with (ns +:+ ":" +:+ rest).
    rewrite (split_with_namespace _ _ Hns). now split.
  - left. split; [reflexivity | now apply split_without].
Qed.

Lemma no_common_namespace a b r :
  absent ":" a -> absent ":" b -> a <> b ->
  startswith (a +:+ ":" +:+ r) (b +:+ ":") = false.
Proof.
  revert b. induction a as [|x a IH]; intros b Ha Hb Hne.
  - destruct b as [|y b]; [congruence|]. destruct Hb as [Hy _].
    rewrite app_nil. change (String y b +:+ ":") with (String y (b +:+ ":")).
    change (":" +:+ r) with (String ":" r). cbn [startswith].
    apply Ascii.eqb_neq in Hy. now rewrite Hy.
  - destruct Ha as [Hx Ha].
    change (String x a +:+ ":" +:+ r) with (String x (a +:+ ":" +:+ r)).
    destruct b as [|y b].
    + rewrite app_nil. change ":" with (String ":" "") at 2. cbn [startswith].
      assert (Hx' : ":"%char <> x) by congruence.
      apply Ascii.eqb_neq in Hx'. now rewrite Hx'.
    + destruct Hb as [Hy Hb].
      change (String y b +:+ ":") with (String y (b +:+ ":")). cbn [startswith].
      destruct (Ascii.eqb_spec y x) as [->|Hyx]; [|reflexivity].
      cbn [andb]. apply IH; [assumption | assumption | congruence].
Qed.

(** the answer of [create_relative_corpus_path] for a context with a
    namespace, once the absolute step has answered a path *)
Lemma relative_strips p fd ns absolute self self' :
  namespace fd = Some ns -> truthy (Some ns) = true ->
  create_absolute_corpus_path p (Some (Container fd)) self = (Ok (Some absolute), self') ->
  create_relative_corpus_path p (Some fd) self =
    (Ok (Some (if startswith absolute (ns +:+ ":")
               then strip_prefix (folder_path fd)
                      (slice_from absolute (len (ns +:+ ":")))
               else absolute)),
     self').
Proof.
  intros Hns Hne Habs. unfold create_relative_corpus_path, bind.
  cbn [fmap option_fmap option_map]. rewrite Habs, Hns, Hne. cbn [format].
  assert (Hs : truthy (Some (ns +:+ ":")) = true).
  { destruct ns; [discriminate | reflexivity]. }
  rewrite Hs. unfold strip_prefix.
  destruct (startswith absolute (ns +:+ ":")); [|reflexivity].
  destruct (truthy (folder_path fd) &&
            startswith (slice_from absolute (len (ns +:+ ":"))) (format (folder_path fd)));
    reflexivity.
Qed.

(** For a folder with a non-empty namespace and a folder path that is
    absent, empty or passes validation, and a path that passes
    validation, whose remainder starts with a slash and whose namespace
    is empty or the one of the folder, [create_relative_corpus_path]
    answers the remainder, without the folder path when the remainder
    starts with it: the folder path as the folder has it, not closed by a
    slash when it lacks one. *)
Theorem relative_within_namespace (p ns : string) (fd : CdmFolderDefinition)
    (self : StorageManager) :
  status_message p = None ->
  namespace fd = Some ns -> truthy (Some ns) = true ->
  prefix_passes (folder_path fd) = true ->
  startswith (split_namespace_path p).2 "/" = true ->
  (split_namespace_path p).1 = "" \/ (split_namespace_path p).1 = ns ->
  create_relative_corpus_path p (Some fd) self =
    (Ok (Some (strip_prefix (folder_path fd) (split_namespace_path p).2)),
     prefix_warned (folder_path fd) self).
Proof.
  intros Hp Hns Hne Hpre Habs Hsame.
  assert (E := absolute_rooted p (Some (Container fd)) (folder_path fd)
                 (Some ns) self Hp).
  cbn [context] in E. rewrite Hns in E. specialize (E eq_refl Hpre Habs).
  assert (Hfirst : with_namespace
                     (first_nonempty [Some (split_namespace_path p).1; Some ns;
                                      default_namespace self])
                     (split_namespace_path p).2 =
                   (ns +:+ ":") +:+ (split_namespace_path p).2).
  { rewrite str_app_assoc. cbn [first_nonempty]. unfold with_namespace.
    destruct ns as [|c ns']; [discriminate|].
    destruct Hsame as [E0 | E0]; rewrite E0; reflexivity. }
  rewrite Hfirst in E.
  rewrite (relative_strips p fd ns _ self _ Hns Hne E).
  now rewrite startswith_app, slice_from_app.
Qed.

Lemma relative_within_namespace_witness :
  create_relative_corpus_path "local:/data/core/x.json" (Some Demo.unclosed) Demo.fresh =
    (Ok (Some "/core/x.json"),
     log_warning "Expected path prefix to end in /, but it didn't. Appended the /"
       (Some "/data") Demo.fresh).
Proof.
  exact (relative_within_namespace "local:/data/core/x.json" "local" Demo.unclosed
           Demo.fresh eq_refl eq_refl eq_refl eq_refl eq_refl (or_intror eq_refl)).
Defined.

(** For a folder with a non-empty namespace that holds no colon and a
    folder path that is absent, empty or passes validation, a path that
    passes validation, whose remainder starts with a slash and whose
    namespace is non-empty and not the one of the folder, comes back from
    [create_relative_corpus_path] as it went in. *)
Theorem relative_foreign_namespace (p ns : string) (fd : CdmFolderDefinition)
    (self : StorageManager) :
  status_message p = None ->
  namespace fd = Some ns -> truthy (Some ns) = true -> str_in ":" ns = false ->
  prefix_passes (folder_path fd) = true ->
  startswith (split_namespace_path p).2 "/" = true ->
  truthy (Some (split_namespace_path p).1) = true ->
  (split_namespace_path p).1 <> ns ->
  create_relative_corpus_path p (Some fd) self =
    (Ok (Some p), prefix_warned (folder_path fd) self).
Proof.
  intros Hp Hns Hne Hcolon Hpre Habs Hpns Hother.
  destruct (split_shape p) as [[_ Hsplit] | [Hshape Hpcolon]].
  { rewrite Hsplit in Hpns. discriminate. }
  assert (E := absolute_rooted p (Some (Container fd)) (folder_path fd)
                 (Some ns) self Hp).
  cbn [context] in E. rewrite Hns in E. specialize (E eq_refl Hpre Habs).
  cbn [first_nonempty] in E. rewrite Hpns in E. unfold with_namespace in E.
  rewrite Hpns in E. cbn [format] in E. rewrite <- Hshape in E.
  rewrite (relative_strips p fd ns _ self _ Hns Hne E).
  rewrite Hshape at 1.
  rewrite no_common_namespace; [reflexivity | | | assumption];
    now apply absent_str_in.
Qed.

Lemma relative_foreign_namespace_witness :
  create_relative_corpus_path "cdm:/core/x.json" (Some Demo.data) Demo.fresh =
    (Ok (Some "cdm:/core/x.json"), Demo.fresh).
Proof.
  refine (relative_foreign_namespace "cdm:/core/x.json" "local" Demo.data Demo.fresh
            eq_refl eq_refl eq_refl eq_refl eq_refl eq_refl eq_refl _).
  discriminate.
Defined.

(** With no folder to be relative to, or a folder that carries no
    namespace, [create_relative_corpus_path] strips nothing: it answers
    what [create_absolute_corpus_path] answers, raises what it raises and
    logs what it logs. *)
Theorem relative_without_namespace (p : string) (relative_to : option CdmFolderDefinition)
    (self : StorageManager) :
  match relative_to with
  | Some fd => truthy (namespace fd) = false
  | None => True
  end ->
  create_relative_corpus_path p relative_to self =
  create_absolute_corpus_path p (Container <$> relative_to) self.
Proof.
  intros H. unfold create_relative_corpus_path, bind.
  destruct (create_absolute_corpus_path p (Container <$> relative_to) self)
    as [[new_path|e] self']; [|reflexivity].
  destruct relative_to as [fd|]; [rewrite H|]; reflexivity.
Qed.

Lemma relative_without_namespace_witness :
  create_relative_corpus_path "core/x.json" (Some Demo.unnamed) Demo.fresh =
  create_absolute_corpus_path "core/x.json" (Some (Container Demo.unnamed)) Demo.fresh.
Proof.
  exact (relative_without_namespace "core/x.json" (Some Demo.unnamed) Demo.fresh eq_refl).
Defined.

(** A path that passes validation and has both a non-empty namespace and
    a remainder starting with a slash is already absolute:
    [create_absolute_corpus_path] answers the path itself, whatever the
    default namespace, for every context object that is absent or gives a
    prefix and a namespace, with a prefix that is absent, empty or passes
    validation. *)
Theorem absolute_is_fixed (p : string) (obj : option CdmObject)
    (prefix cns : option string) (self : StorageManager) :
  status_message p = None ->
  context obj = Some (prefix, cns) ->
  prefix_passes prefix = true ->
  truthy (Some (split_namespace_path p).1) = true ->
  startswith (split_namespace_path p).2 "/" = true ->
  create_absolute_corpus_path p obj self = (Ok (Some p), prefix_warned prefix self).
Proof.
  intros Hp Hctx Hpre Hns Habs.
  rewrite (absolute_steps p obj prefix cns self Hp Hctx Hpre).
  rewrite (starts_with_slash _ Habs). cbn [Ascii.eqb Bool.eqb negb first_nonempty].
  rewrite Hns. unfold with_namespace. rewrite Hns. cbn [format].
  destruct (split_shape p) as [[_ Hsplit] | [Hshape _]].
  - rewrite Hsplit in Hns. discriminate.
  - now rewrite <- Hshape.
Qed.

Lemma absolute_is_fixed_witness :
  create_absolute_corpus_path "cdm:/core/x.json" (Some (Container Demo.data))
    Demo.imported =
    (Ok (Some "cdm:/core/x.json"), Demo.imported).
Proof.
  exact (absolute_is_fixed "cdm:/core/x.json" (Some (Container Demo.data))
           (Some "/data/") (Some "local") Demo.imported
           eq_refl eq_refl eq_refl eq_refl eq_refl).
Defined.

End more_path_facts.

(** ** Further properties of the registry *)

Section more_registry_facts.
Context {env : Collaborators}.
Import DictFacts.

Lemma logged_set_logger self entries :
  logged self (set_logger (logger self ++ entries) self) entries.
Proof. now repeat split. Qed.

(** The lookups change nothing of the manager but its log.
    [fetch_adapter] and [fetch_root_folder] log exactly when they answer
    [None], [adapter_path_to_corpus_path] exactly when its answer is
    empty, and [corpus_path_to_adapter_path] logs nothing when it answers
    a path; [fetch_config] too leaves all but the log as it was. *)
Theorem lookups_only_log (ns : option string) (adapter_path corpus_path : string)
    (self : StorageManager) :
  (exists entries,
     logged self (fetch_adapter ns self).2 entries /\
     (entries = [] <-> is_Some (fetch_adapter ns self).1)) /\
  (exists entries,
     logged self (fetch_root_folder ns self).2 entries /\
     (entries = [] <-> is_Some (fetch_root_folder ns self).1)) /\
  (exists entries,
     logged self (adapter_path_to_corpus_path adapter_path self).2 entries /\
     (entries = [] <-> Py.truthy (adapter_path_to_corpus_path adapter_path self).1 = true)) /\
  (exists entries,
     logged self (corpus_path_to_adapter_path corpus_path self).2 entries /\
     (is_Some (corpus_path_to_adapter_path corpus_path self).1 -> entries = [])) /\
  (exists entries, logged self (fetch_config self).2 entries).
Proof.
  assert (Hnone : forall A, ~ is_Some (@None A)) by (intros A [? [=]]).
  split; [|split; [|split; [|split]]].
  - unfold fetch_adapter.
    destruct ns as [ns|]; [destruct (OrderedDict.get ns (_namespace_adapters self))|];
      cbn [fst snd].
    + exists []. split; [apply logged_same|]. split; eauto.
    + eexists. split; [apply (logged_error self self []), logged_same|].
      split; [discriminate | intros H; now apply Hnone in H].
    + eexists. split; [apply (logged_error self self []), logged_same|].
      split; [discriminate | intros H; now apply Hnone in H].
  - unfold fetch_root_folder.
    destruct ns as [ns|];
      [destruct (Py.truthy (Some ns));
       [destruct (OrderedDict.get ns (_namespace_folders self))|]|];
      cbn [fst snd].
    + exists []. split; [apply logged_same|]. split; eauto.
    + eexists. split; [apply (logged_error self self []), logged_same|].
      split; [discriminate | intros H; now apply Hnone in H].
    + eexists. split; [apply (logged_error self self []), logged_same|].
      split; [discriminate | intros H; now apply Hnone in H].
    + eexists. split; [apply (logged_error self self []), logged_same|].
      split; [discriminate | intros H; now apply Hnone in H].
  - rewrite adapter_path_to_corpus_path_scan. cbv zeta.
    destruct (Py.truthy (first_corpus_path adapter_path (_namespace_adapters self) None))
      eqn:E; cbn [negb fst snd].
    + exists []. split; [apply logged_same|]. now split.
    + eexists. split; [apply (logged_error self self []), logged_same|].
      rewrite E. split; discriminate.
  - unfold corpus_path_to_adapter_path, fetch_adapter.
    destruct (Py.or_ (Some (split_namespace_path corpus_path).1) (default_namespace self))
      as [n|]; [destruct (OrderedDict.get n (_namespace_adapters self))|];
      cbn [fst snd].
    + exists []. split; [apply logged_same | reflexivity].
    + eexists. split; [apply logged_error, (logged_error self self []), logged_same|].
      intros H. now apply Hnone in H.
    + eexists. split; [apply logged_error, (logged_error self self []), logged_same|].
      intros H. now apply Hnone in H.
  - unfold fetch_config, bind, read. rewrite fetch_config_loop_spec. cbn [fst snd].
    eexists. apply logged_set_logger.
Qed.

(** [corpus_path_to_adapter_path] looks the adapter up under the
    namespace on the path, or under the default namespace when the path
    has none, and answers what that adapter makes of the remainder; with
    no adapter under that namespace, or no namespace at all, it answers
    [None] behind two errors, that of [fetch_adapter] and its own. *)
Theorem corpus_path_dispatch (corpus_path : string) (self : StorageManager) :
  (forall ns adapter,
     Py.or_ (Some (split_namespace_path corpus_path).1) (default_namespace self) = Some ns ->
     OrderedDict.get ns (_namespace_adapters self) = Some adapter ->
     corpus_path_to_adapter_path corpus_path self =
       (Adapter.create_adapter_path adapter (split_namespace_path corpus_path).2, self)) /\
  (forall namespace,
     Py.or_ (Some (split_namespace_path corpus_path).1) (default_namespace self) = namespace ->
     match namespace with
     | Some ns => OrderedDict.get ns (_namespace_adapters self) = None
     | None => True
     end ->
     corpus_path_to_adapter_path corpus_path self =
       (None,
        log_error ("The namespace " +:+ Py.dquote +:+ Py.format namespace +:+ Py.dquote +:+
                   " has not been registered") None
          (log_error ("Adapter not found for the namespace '" +:+ Py.format namespace +:+ "'")
             None self))).
Proof.
  split.
  - intros ns adapter Hns Hget. unfold corpus_path_to_adapter_path, fetch_adapter.
    now rewrite Hns, Hget.
  - intros namespace Hns Hget. unfold corpus_path_to_adapter_path, fetch_adapter.
    rewrite Hns. destruct namespace as [ns|]; [now rewrite Hget | reflexivity].
Qed.

(** A corpus path goes to its adapter and comes back: for a non-empty
    namespace that holds no colon and a non-empty remainder, when the
    adapter mounted under the namespace makes an adapter path of the
    remainder, reads the remainder back from it, and no adapter mounted
    before it claims that adapter path, [corpus_path_to_adapter_path] of
    [namespace:remainder] answers that adapter path and
    [adapter_path_to_corpus_path] of it is the corpus path again. *)
Theorem corpus_adapter_round_trip (ns remainder adapter_path : string)
    (adapter : StorageAdapterBase) (earlier later : list (string * StorageAdapterBase))
    (self : StorageManager) :
  Py.truthy (Some ns) = true -> Py.str_in ":" ns = false ->
  _namespace_adapters self = (earlier ++ (ns, adapter) :: later)%list ->
  OrderedDict.get ns earlier = None ->
  none_recognizes adapter_path earlier = true ->
  Adapter.create_adapter_path adapter remainder = Some adapter_path ->
  Adapter.create_corpus_path adapter adapter_path = Some remainder ->
  Py.truthy (Some remainder) = true ->
  corpus_path_to_adapter_path (ns +:+ ":" +:+ remainder) self = (Some adapter_path, self) /\
  adapter_path_to_corpus_path adapter_path self = (Some (ns +:+ ":" +:+ remainder), self).
Proof.
  intros Hne Hcolon Hitems Hfresh Hearlier Hto Hback Hrem. split.
  - unfold corpus_path_to_adapter_path, fetch_adapter.
    rewrite (split_with_namespace _ _ Hcolon). cbn [fst snd]. unfold Py.or_.
    rewrite Hne, Hitems.
    assert (Hget : OrderedDict.get ns (earlier ++ (ns, adapter) :: later) = Some adapter).
    { clear Hitems Hearlier. induction earlier as [|[k a] earlier IH]; cbn [app OrderedDict.get].
      - now rewrite String.eqb_refl.
      - cbn [OrderedDict.get] in Hfresh. destruct (String.eqb ns k); [discriminate|].
        now apply IH. }
    now rewrite Hget, Hto.
  - rewrite adapter_path_to_corpus_path_scan, Hitems.
    rewrite (first_corpus_path_hit adapter_path earlier ns adapter later remainder None
               Hearlier Hback Hrem).
    cbv zeta. destruct ns; [discriminate | reflexivity].
Qed.

Lemma keys_set {V} k (v : V) d :
  OrderedDict.keys (OrderedDict.set k v d) = keys_with k (OrderedDict.keys d).
Proof.
  unfold keys_with, OrderedDict.keys.
  induction d as [|[k' v'] d IH]; cbn [OrderedDict.set map existsb fst]; [reflexivity|].
  destruct (String.eqb k k'); cbn [orb map fst]; [reflexivity|].
  rewrite IH. now destruct (existsb (String.eqb k) (map fst d)).
Qed.

Lemma keys_pop {V} k (d : list (string * V)) :
  OrderedDict.keys (OrderedDict.pop k d) =
  List.filter (fun k' => negb (String.eqb k k')) (OrderedDict.keys d).
Proof.
  unfold OrderedDict.keys, OrderedDict.pop.
  induction d as [|[k' v'] d IH]; cbn [List.filter map fst]; [reflexivity|].
  destruct (String.eqb k k'); cbn [negb map fst]; now rewrite IH.
Qed.

Lemma NoDup_keys_with k ks : NoDup ks -> NoDup (keys_with k ks).
Proof.
  intros H. unfold keys_with. destruct (existsb (String.eqb k) ks) eqn:E; [exact H|].
  apply NoDup_app. split; [exact H|]. split; [|apply NoDup_singleton].
  intros x Hx Hk. apply list_elem_of_singleton in Hk. subst x.
  apply list_elem_of_In in Hx.
  assert (Ht : existsb (String.eqb k) ks = true).
  { apply existsb_exists. exists k. split; [exact Hx | apply String.eqb_refl]. }
  congruence.
Qed.

Lemma NoDup_filter_keys (f : string -> bool) ks : NoDup ks -> NoDup (List.filter f ks).
Proof.
  induction 1 as [|x ks Hx Hks IH]; cbn [List.filter]; [constructor|].
  destruct (f x); [|exact IH]. constructor; [|exact IH].
  rewrite list_elem_of_In, filter_In, <- list_elem_of_In. tauto.
Qed.

Lemma aligned_mount ns adapter self : aligned self -> aligned (mount ns adapter self).
Proof.
  destruct adapter as [adapter|]; [|tauto]. intros [Hkeys Hnodup].
  split; cbn [mount _namespace_adapters _namespace_folders].
  - now rewrite !keys_set, Hkeys.
  - rewrite keys_set. now apply NoDup_keys_with.
Qed.

Lemma aligned_unmount ns self : aligned self -> aligned (unmount ns self).
Proof.
  intros [Hkeys Hnodup]. unfold unmount.
  match goal with |- aligned (if _ then mount _ _ ?s else ?s) => assert (Hs : aligned s) end.
  { split; cbn [_namespace_adapters _namespace_folders].
    - now rewrite !keys_pop, Hkeys.
    - rewrite keys_pop. now apply NoDup_filter_keys. }
  destruct (String.eqb ns "cdm"); [now apply aligned_mount | exact Hs].
Qed.

Lemma aligned_same self self' :
  _namespace_adapters self' = _namespace_adapters self ->
  _namespace_folders self' = _namespace_folders self ->
  aligned self -> aligned self'.
Proof. unfold aligned. intros -> ->. tauto. Qed.

Lemma aligned_import_loop items unrecognized self :
  aligned self -> aligned (mount_from_config_loop items unrecognized self).2.
Proof.
  revert unrecognized self.
  induction items as [|item items IH]; intros unrecognized self Hself; [exact Hself|].
  cbn [mount_from_config_loop]. unfold bind, error.
  assert (Hlog : forall message, aligned (log_error message None self)).
  { intros message. now apply (aligned_same self). }
  destruct (negb (Py.truthy (item_namespace item))); [now apply IH|].
  destruct (item_config item) as [configs|]; [|now apply IH].
  destruct (negb (json_truthy configs)); [now apply IH|].
  destruct (negb (Py.truthy (item_type item))); [now apply IH|].
  destruct (_registered_adapter_types !! Py.format (item_type item)); [|now apply IH].
  apply IH. now apply aligned_mount.
Qed.

Lemma aligned_import adapter_config flag self :
  aligned self -> aligned (mount_from_config adapter_config flag self).2.
Proof.
  intros Hself. unfold mount_from_config.
  destruct (negb (Py.truthy (Some adapter_config))).
  { now apply (aligned_same self). }
  unfold bind.
  set (doc := json_loads_document adapter_config).
  destruct (Py.truthy (appId doc)), (Py.truthy (defaultNamespace doc));
    cbn [set_app_id set_default_namespace ret];
    match goal with
    | |- aligned (let (r, self') := mount_from_config_loop ?l ?u ?s in _).2 =>
        assert (Hs : aligned (mount_from_config_loop l u s).2)
          by (apply aligned_import_loop; now apply (aligned_same self));
        destruct (mount_from_config_loop l u s) as [[?|?] ?]; exact Hs
    end.
Qed.

Lemma aligned_init : aligned __init__.
Proof.
  apply (aligned_same (mount "cdm" (Some GithubAdapter)
                         (mount "local" (Some LocalAdapter)
                            {| default_namespace := None; app_id := None; logger := [];
                               _namespace_adapters := []; _namespace_folders := [];
                               _system_defined_namespaces := ∅ |}))); try reflexivity.
  do 2 apply aligned_mount. split; [reflexivity | constructor].
Qed.

(** From the constructor on, whatever is mounted, unmounted and imported,
    the adapters and the root folders are kept under the same namespaces
    in the same order, and no namespace is there twice. *)
Theorem registry_aligned :
  (forall ops, aligned (run ops __init__)) /\
  (forall self ops, aligned self -> aligned (run ops self)).
Proof.
  assert (Hrun : forall ops self, aligned self -> aligned (run ops self)).
  { induction ops as [|o ops IH]; intros self Hself; [exact Hself|].
    apply (IH (perform o self)).
    destruct o as [ns adapter|ns|adapter_config flag]; cbn [perform];
      [now apply aligned_mount | now apply aligned_unmount | now apply aligned_import]. }
  split; [intros ops; apply Hrun, aligned_init | intros self ops; apply Hrun].
Qed.

(** In a manager whose registry is paired, the root folder fetched for a
    namespace resolves relative paths under that namespace: a relative
    path without a namespace prefix becomes [namespace:/path], nothing is
    logged, and the adapter of the namespace can be fetched too. *)
Theorem root_folder_resolves (ns p : string) (fd : CdmFolderDefinition)
    (self : StorageManager) :
  paired self ->
  (fetch_root_folder (Some ns) self).1 = Some fd ->
  status_message p = None -> Py.str_in ":" p = false ->
  Py.truthy (Some p) = true -> Py.startswith p "/" = false ->
  fetch_root_folder (Some ns) self = (Some fd, self) /\
  is_Some (fetch_adapter (Some ns) self).1 /\
  create_absolute_corpus_path p (Some (Container fd)) self =
    (Ok (Some (ns +:+ ":" +:+ "/" +:+ p)), self).
Proof.
  intros [Hboth Hroot] Hfetch Hp Hcolon Hne Hrel.
  unfold fetch_root_folder in Hfetch |- *. unfold fetch_adapter.
  destruct (Py.truthy (Some ns)) eqn:Hns; [|discriminate].
  destruct (OrderedDict.get ns (_namespace_folders self)) as [fd'|] eqn:Hget;
    [|discriminate].
  cbn [fst] in Hfetch. injection Hfetch as ->.
  destruct (Hroot ns fd Hget) as [Hfdns Hfdpath].
  split; [reflexivity|]. split.
  - destruct (proj2 (Hboth ns) (ex_intro _ fd Hget)) as [adapter Ha].
    rewrite Ha. cbn [fst]. eauto.
  - apply (absolute_fresh self ns "/" p fd); try assumption; reflexivity.
Qed.

Lemma pop_pop {V} k (d : list (string * V)) :
  OrderedDict.pop k (OrderedDict.pop k d) = OrderedDict.pop k d.
Proof.
  unfold OrderedDict.pop. induction d as [|[k' v'] d IH]; cbn [List.filter fst]; [reflexivity|].
  destruct (String.eqb k k') eqn:E; cbn [negb List.filter fst]; [exact IH|].
  rewrite E. cbn [negb]. now rewrite IH.
Qed.

Lemma pop_absent {V} k (d : list (string * V)) :
  OrderedDict.get k d = None -> OrderedDict.pop k d = d.
Proof.
  unfold OrderedDict.pop. induction d as [|[k' v'] d IH];
    cbn [List.filter OrderedDict.get fst]; [reflexivity|].
  destruct (String.eqb k k'); [discriminate|]. cbn [negb]. intros H. now rewrite IH.
Qed.

Lemma set_popped {V} k (v : V) d :
  OrderedDict.set k v (OrderedDict.pop k d) = (OrderedDict.pop k d ++ [(k, v)])%list.
Proof. apply set_fresh, get_pop_eq. Qed.

Lemma set_set {V} k (v v' : V) d :
  OrderedDict.set k v (OrderedDict.set k v' d) = OrderedDict.set k v d.
Proof.
  induction d as [|[k0 v0] d IH]; cbn [OrderedDict.set].
  - now rewrite String.eqb_refl.
  - destruct (String.eqb k k0) eqn:E; cbn [OrderedDict.set]; rewrite E; [reflexivity|].
    now rewrite IH.
Qed.

Lemma system_removed ns (X : gset string) :
  ns ∉ (if bool_decide (ns ∈ X) then X ∖ {[ns]} else X).
Proof.
  destruct (bool_decide_reflect (ns ∈ X)); [|assumption].
  rewrite elem_of_difference, elem_of_singleton. tauto.
Qed.

Lemma system_removed_again ns (X : gset string) :
  ns ∉ X -> (if bool_decide (ns ∈ X) then X ∖ {[ns]} else X) = X.
Proof. intros H. now rewrite bool_decide_eq_false_2. Qed.

(** [unmount] undoes [mount] and more: unmounting a namespace right after
    mounting it leaves what unmounting it alone leaves, unmounting twice
    is unmounting once, and unmounting a namespace other than [cdm] that
    was not mounted leaves both maps as they were. *)
Theorem unmount_absorbs (ns : string) (self : StorageManager) :
  (forall adapter, unmount ns (mount ns adapter self) = unmount ns self) /\
  unmount ns (unmount ns self) = unmount ns self /\
  (ns <> "cdm" ->
   OrderedDict.get ns (_namespace_adapters self) = None ->
   OrderedDict.get ns (_namespace_folders self) = None ->
   forall adapter,
     _namespace_adapters (unmount ns (mount ns adapter self)) = _namespace_adapters self /\
     _namespace_folders (unmount ns (mount ns adapter self)) = _namespace_folders self).
Proof.
  assert (Hmount : forall s adapter, unmount ns (mount ns adapter s) = unmount ns s).
  { intros s [adapter|]; [|reflexivity]. unfold unmount.
    cbn [mount default_namespace app_id logger _namespace_adapters _namespace_folders
         _system_defined_namespaces].
    rewrite !pop_set.
    repeat rewrite (system_removed_again ns _ (system_removed ns _)). reflexivity. }
  assert (Hpop : forall s,
             unmount ns
               {| default_namespace := default_namespace s;
                  app_id := app_id s;
                  logger := logger s;
                  _namespace_adapters := OrderedDict.pop ns (_namespace_adapters s);
                  _namespace_folders := OrderedDict.pop ns (_namespace_folders s);
                  _system_defined_namespaces :=
                    if bool_decide (ns ∈ _system_defined_namespaces s)
                    then _system_defined_namespaces s ∖ {[ns]}
                    else _system_defined_namespaces s |} = unmount ns s).
  { intros s. unfold unmount.
    cbn [default_namespace app_id logger _namespace_adapters _namespace_folders
         _system_defined_namespaces].
    rewrite !pop_pop.
    repeat rewrite (system_removed_again ns _ (system_removed ns _)). reflexivity. }
  split; [apply Hmount|]. split.
  - unfold unmount at 2. destruct (String.eqb ns "cdm"); [rewrite Hmount|]; apply Hpop.
  - intros Hne Ha Hf adapter. rewrite Hmount. unfold unmount.
    apply String.eqb_neq in Hne. rewrite Hne.
    cbn [_namespace_adapters _namespace_folders].
    now rewrite (pop_absent _ _ Ha), (pop_absent _ _ Hf).
Qed.

(** [unmount] touches one namespace: the default namespace, the
    application identifier and the log stay, and so do the adapter, the
    root folder and the place in the order of every other namespace.
    Unmounting [cdm] puts it back last, behind every other namespace,
    with the resource adapter and a fresh root folder. *)
Theorem unmount_frame (ns : string) (self : StorageManager) :
  default_namespace (unmount ns self) = default_namespace self /\
  app_id (unmount ns self) = app_id self /\
  logger (unmount ns self) = logger self /\
  (ns ∉ _system_defined_namespaces (unmount ns self)) /\
  OrderedDict.pop ns (_namespace_adapters (unmount ns self)) =
    OrderedDict.pop ns (_namespace_adapters self) /\
  OrderedDict.pop ns (_namespace_folders (unmount ns self)) =
    OrderedDict.pop ns (_namespace_folders self) /\
  (forall other, other <> ns ->
     OrderedDict.get other (_namespace_adapters (unmount ns self)) =
       OrderedDict.get other (_namespace_adapters self) /\
     OrderedDict.get other (_namespace_folders (unmount ns self)) =
       OrderedDict.get other (_namespace_folders self) /\
     (other ∈ _system_defined_namespaces (unmount ns self) <->
      other ∈ _system_defined_namespaces self)) /\
  _namespace_adapters (unmount "cdm" self) =
    (OrderedDict.pop "cdm" (_namespace_adapters self) ++ [("cdm", ResourceAdapter)])%list /\
  _namespace_folders (unmount "cdm" self) =
    (OrderedDict.pop "cdm" (_namespace_folders self) ++ [("cdm", root_folder "cdm")])%list.
Proof.
  assert (Hsys : forall other (X : gset string),
             other <> ns ->
             other ∈ (if bool_decide (ns ∈ X) then X ∖ {[ns]} else X) <-> other ∈ X).
  { intros other X Hne. rewrite system_after_mount. tauto. }
  repeat split.
  1-3: unfold unmount; destruct (String.eqb ns "cdm"); reflexivity.
  - unfold unmount. destruct (String.eqb ns "cdm");
      cbn [mount _system_defined_namespaces];
      rewrite ?(system_removed_again ns _ (system_removed ns _)); apply system_removed.
  - unfold unmount. destruct (String.eqb ns "cdm"); cbn [mount _namespace_adapters];
      now rewrite ?pop_set, pop_pop.
  - unfold unmount. destruct (String.eqb ns "cdm"); cbn [mount _namespace_folders];
      now rewrite ?pop_set, pop_pop.
  - unfold unmount. destruct (String.eqb ns "cdm"); cbn [mount _namespace_adapters];
      rewrite ?get_set_ne by congruence; apply get_pop_ne; congruence.
  - unfold unmount. destruct (String.eqb ns "cdm"); cbn [mount _namespace_folders];
      rewrite ?get_set_ne by congruence; apply get_pop_ne; congruence.
  - unfold unmount. destruct (String.eqb ns "cdm");
      cbn [mount _system_defined_namespaces];
      rewrite ?(system_removed_again ns _ (system_removed ns _)); now apply Hsys.
  - unfold unmount. destruct (String.eqb ns "cdm");
      cbn [mount _system_defined_namespaces];
      rewrite ?(system_removed_again ns _ (system_removed ns _)); now apply Hsys.
  - unfold unmount. cbn [String.eqb Ascii.eqb Bool.eqb mount _namespace_adapters].
    apply set_popped.
  - unfold unmount. cbn [String.eqb Ascii.eqb Bool.eqb mount _namespace_folders].
    apply set_popped.
Qed.

(** Mounting again under a namespace replaces: the second adapter is
    the one that stays, whatever was mounted first, the namespace keeps
    the place it had in the order, and mounting the same adapter twice is
    mounting it once. *)
Theorem mount_replaces (ns : string) (adapter : StorageAdapterBase)
    (self : StorageManager) :
  (forall first, mount ns (Some adapter) (mount ns first self) = mount ns (Some adapter) self) /\
  (is_Some (OrderedDict.get ns (_namespace_adapters self)) ->
   OrderedDict.keys (_namespace_adapters (mount ns (Some adapter) self)) =
     OrderedDict.keys (_namespace_adapters self)).
Proof.
  split.
  - intros [first|]; [|reflexivity].
    cbn [mount default_namespace app_id logger _namespace_adapters _namespace_folders
         _system_defined_namespaces].
    rewrite !set_set.
    repeat rewrite (system_removed_again ns _ (system_removed ns _)). reflexivity.
  - intros [present Hget]. cbn [mount _namespace_adapters]. rewrite keys_set.
    unfold keys_with.
    assert (E : existsb (String.eqb ns) (OrderedDict.keys (_namespace_adapters self)) = true).
    { revert Hget. unfold OrderedDict.keys.
      induction (_namespace_adapters self) as [|[k v] d IH];
        cbn [OrderedDict.get map existsb fst]; [discriminate|].
      destruct (String.eqb ns k); [reflexivity|]. exact IH. }
    now rewrite E.
Qed.

Lemma import_incomplete item rest unrecognized self :
  complete item = false ->
  exists message,
    mount_from_config_loop (item :: rest) unrecognized self =
    mount_from_config_loop rest unrecognized (log_error message None self).
Proof.
  intros Hc. cbn [mount_from_config_loop]. unfold bind, error. unfold complete in Hc.
  destruct (Py.truthy (item_namespace item)); cbn [negb]; [|eauto].
  destruct (item_config item) as [configs|]; [|eauto].
  destruct (json_truthy configs); cbn [negb]; [|eauto].
  destruct (Py.truthy (item_type item)); cbn [negb]; [discriminate | eauto].
Qed.

Lemma import_loop_lookup ns items unrecognized self :
  OrderedDict.get ns
    (_namespace_adapters (mount_from_config_loop items unrecognized self).2) =
  match last_mounted ns items with
  | Some item => Some (adapter_of item)
  | None => OrderedDict.get ns (_namespace_adapters self)
  end.
Proof.
  revert unrecognized self.
  induction items as [|item items IH]; intros unrecognized self; [reflexivity|].
  cbn [last_mounted]. unfold mountable.
  destruct (complete item) eqn:Hc.
  - destruct (known_type item) eqn:Hk; cbn [andb].
    + rewrite (import_mount _ _ _ _ Hc Hk), IH.
      destruct (last_mounted ns items); [reflexivity|].
      cbn [mount _namespace_adapters].
      destruct (String.eqb_spec (Py.format (item_namespace item)) ns) as [->|Hne].
      * apply get_set_eq.
      * now apply get_set_ne.
    + rewrite (import_unrecognized _ _ _ _ Hc Hk), IH.
      now destruct (last_mounted ns items).
  - cbn [andb]. destruct (import_incomplete item items unrecognized self Hc) as [message ->].
    rewrite IH. now destruct (last_mounted ns items).
Qed.

(** After [mount_from_config], a namespace has the adapter of the last
    entry of the document that was mounted under it, and a namespace that
    no mounted entry names has the adapter it had: entries that lack a
    field or have an unknown type change no adapter. *)
Theorem import_last_wins (adapter_config : string) (flag : bool) (ns : string)
    (self : StorageManager) :
  Py.truthy (Some adapter_config) = true ->
  OrderedDict.get ns (_namespace_adapters (mount_from_config adapter_config flag self).2) =
  match last_mounted ns (adapters (json_loads_document adapter_config)) with
  | Some item => Some (adapter_of item)
  | None => OrderedDict.get ns (_namespace_adapters self)
  end.
Proof.
  intros Hcfg.
  destruct (mount_from_config_run adapter_config flag self Hcfg) as (self0 & Ha & _ & ->).
  rewrite <- Ha,
    <- (import_loop_lookup ns (adapters (json_loads_document adapter_config)) [] self0).
  now destruct (mount_from_config_loop _ [] self0) as [[?|?] ?].
Qed.

Lemma mount_from_config_start adapter_config flag self :
  Py.truthy (Some adapter_config) = true ->
  mount_from_config adapter_config flag self =
    (let (r, self') :=
       mount_from_config_loop (adapters (json_loads_document adapter_config)) []
         (import_start (json_loads_document adapter_config) self) in
     match r with
     | Ok unrecognized => (Ok (if flag then Some unrecognized else None), self')
     | Raise e => (Raise e, self')
     end).
Proof.
  intros Hcfg. unfold mount_from_config, import_start. rewrite Hcfg. cbn [negb].
  unfold bind. destruct self.
  destruct (Py.truthy (appId (json_loads_document adapter_config))),
           (Py.truthy (defaultNamespace (json_loads_document adapter_config)));
    reflexivity.
Qed.

Lemma import_loop_frame items unrecognized self :
  default_namespace (mount_from_config_loop items unrecognized self).2 =
    default_namespace self /\
  app_id (mount_from_config_loop items unrecognized self).2 = app_id self /\
  exists entries,
    logger (mount_from_config_loop items unrecognized self).2 =
      (logger self ++ entries)%list /\
    List.length entries = skips items /\
    Forall (fun e => ~ is_warning e) entries.
Proof.
  revert unrecognized self.
  induction items as [|item items IH]; intros unrecognized self.
  - cbn. split; [reflexivity|]. split; [reflexivity|].
    exists []. now rewrite app_nil_r.
  - unfold skips. cbn [List.filter]. fold (skips items).
    destruct (complete item) eqn:Hc; cbn [negb].
    + destruct (known_type item) eqn:Hk.
      * rewrite (import_mount _ _ _ _ Hc Hk).
        exact (IH unrecognized
                 (mount (Py.format (item_namespace item)) (Some (adapter_of item)) self)).
      * rewrite (import_unrecognized _ _ _ _ Hc Hk). apply IH.
    + destruct (import_incomplete item items unrecognized self Hc) as [message ->].
      destruct (IH unrecognized (log_error message None self))
        as (Hd & Ha & entries & Hl & Hn & Hall).
      split; [exact Hd|]. split; [exact Ha|].
      exists (LogError message None :: entries). split; [|split].
      * rewrite Hl. cbn. now rewrite <- app_assoc.
      * cbn [List.length]. now rewrite Hn.
      * constructor; [intros [] | exact Hall].
Qed.

(** [mount_from_config] takes the default namespace and the application
    identifier of the document where the document has them and keeps its
    own where it has not; it logs one error for every entry that lacks a
    field, no warning, and nothing else.  An empty configuration string
    is answered with [None] behind one error, whatever the flag. *)
Theorem import_settings (adapter_config : string) (flag : bool) (self : StorageManager) :
  (Py.truthy (Some adapter_config) = true ->
   default_namespace (mount_from_config adapter_config flag self).2 =
     (if Py.truthy (defaultNamespace (json_loads_document adapter_config))
      then defaultNamespace (json_loads_document adapter_config)
      else default_namespace self) /\
   app_id (mount_from_config adapter_config flag self).2 =
     (if Py.truthy (appId (json_loads_document adapter_config))
      then appId (json_loads_document adapter_config)
      else app_id self) /\
   exists entries,
     logger (mount_from_config adapter_config flag self).2 = (logger self ++ entries)%list /\
     List.length entries = skips (adapters (json_loads_document adapter_config)) /\
     Forall (fun e => ~ is_warning e) entries) /\
  mount_from_config "" flag self =
    (Ok None, log_error "Adapter config cannot be null or empty." None self).
Proof.
  split; [|reflexivity]. intros Hcfg.
  rewrite (mount_from_config_start adapter_config flag self Hcfg).
  pose proof (import_loop_frame (adapters (json_loads_document adapter_config)) []
                (import_start (json_loads_document adapter_config) self)) as H.
  destruct (mount_from_config_loop _ [] _) as [[unrecognized|e] self']; exact H.
Qed.

Lemma get_In {V} k (v : V) d : OrderedDict.get k d = Some v -> In (k, v) d.
Proof.
  induction d as [|[k' v'] d IH]; cbn [OrderedDict.get]; [discriminate|].
  destruct (String.eqb_spec k k') as [->|Hne].
  - intros [= ->]. now left.
  - intros H. right. now apply IH.
Qed.

(** What [mount] does to the export: an adapter that is not of the
    resource kind and has a blob is in the adapter sequence of
    [fetch_config] as soon as it is mounted, under a system-defined
    namespace as under any other; the manager the constructor leaves
    exports no adapter at all. *)
Theorem mount_exports :
  fetch_config __init__ =
    (Ok (json_dumps (JObj [("defaultNamespace", JNull); ("adapters", JArr [])])), __init__) /\
  (forall self ns adapter,
     Adapter._type adapter <> "resource" ->
     Py.truthy (Adapter.fetch_config adapter) = true ->
     exists adapters_array,
       (fetch_config_loop (_namespace_adapters (mount ns (Some adapter) self)) []
          (mount ns (Some adapter) self)).1 = Ok adapters_array /\
       In (JObj (export_entry (ns, adapter))) adapters_array).
Proof.
  split.
  - unfold fetch_config, bind, read. rewrite fetch_config_loop_spec.
    assert (Hsys : forall ns, ns = "local" \/ ns = "cdm" ->
               bool_decide (ns ∈ _system_defined_namespaces __init__) = true).
    { intros ns H. apply bool_decide_eq_true. cbn [__init__ _system_defined_namespaces].
      rewrite !elem_of_union, !elem_of_singleton. tauto. }
    cbn [__init__ mount _namespace_adapters OrderedDict.set String.eqb Ascii.eqb Bool.eqb
         List.filter].
    unfold eligible. cbn [fst snd].
    rewrite (Hsys "local") by now left. rewrite (Hsys "cdm") by now right.
    rewrite !andb_false_r. reflexivity.
  - intros self ns adapter Htype Hblob. rewrite fetch_config_loop_spec. cbn [fst].
    eexists. split; [reflexivity|]. cbn [app].
    apply (in_map (fun kv => JObj (export_entry kv))).
    apply filter_In. split.
    + apply get_In. cbn [mount _namespace_adapters]. apply get_set_eq.
    + unfold eligible, has_blob. cbn [fst snd mount _system_defined_namespaces].
      rewrite Hblob, andb_true_r.
      apply andb_true_iff. split; apply negb_true_iff.
      * now apply String.eqb_neq.
      * apply bool_decide_eq_false, system_removed.
Qed.

End more_registry_facts.

(** ** The further properties, at concrete managers *)

Lemma lookups_only_log_witness :
  exists entries,
    logged Demo.fresh (corpus_path_to_adapter_path "cdm:/x" Demo.fresh).2 entries /\
    entries = [].
Proof.
  destruct (proj1 (proj2 (proj2 (proj2
              (lookups_only_log (env := Demo.env) None "" "cdm:/x" Demo.fresh)))))
    as (entries & Hl & Hfound).
  exists entries. split; [exact Hl|]. apply Hfound. eexists. reflexivity.
Defined.

Lemma corpus_path_dispatch_witness :
  corpus_path_to_adapter_path "/core/x.json" Demo.imported =
    (Some "/core/x.json", Demo.imported).
Proof.
  exact (proj1 (corpus_path_dispatch "/core/x.json" Demo.imported)
           "lake" (adapter_of (env := Demo.env) Demo.lake) eq_refl eq_refl).
Defined.

Lemma corpus_adapter_round_trip_witness :
  corpus_path_to_adapter_path "cdm:core/x.json" Demo.fresh =
    (Some "https://github/core/x.json", Demo.fresh) /\
  adapter_path_to_corpus_path "https://github/core/x.json" Demo.fresh =
    (Some "cdm:core/x.json", Demo.fresh).
Proof.
  exact (corpus_adapter_round_trip "cdm" "core/x.json"
           "https://github/core/x.json" Demo.env.(GithubAdapter)
           [("local", Demo.env.(LocalAdapter))] [] Demo.fresh
           eq_refl eq_refl eq_refl eq_refl eq_refl eq_refl eq_refl eq_refl).
Defined.

Lemma registry_aligned_witness :
  aligned (run (env := Demo.env)
             [Mount "lake" (Some Demo.env.(LocalAdapter)); Import "config" false;
              Unmount "local"]
             Demo.fresh).
Proof.
  refine (proj2 (registry_aligned (env := Demo.env)) Demo.fresh _ _).
  exact (proj1 (registry_aligned (env := Demo.env)) []).
Defined.

Lemma root_folder_resolves_witness :
  fetch_root_folder (Some "lake") Demo.imported = (Some (root_folder "lake"), Demo.imported) /\
  is_Some (fetch_adapter (Some "lake") Demo.imported).1 /\
  create_absolute_corpus_path "core/x.json" (Some (Container (root_folder "lake")))
    Demo.imported =
    (Ok (Some "lake:/core/x.json"), Demo.imported).
Proof.
  refine (root_folder_resolves "lake" "core/x.json" (root_folder "lake") Demo.imported
            _ eq_refl eq_refl eq_refl eq_refl eq_refl).
  apply (paired_import (env := Demo.env)), (paired_init (env := Demo.env)).
Defined.

Lemma unmount_absorbs_witness :
  _namespace_adapters
    (unmount (env := Demo.env) "lake"
       (mount "lake" (Some Demo.env.(LocalAdapter)) Demo.fresh)) =
    _namespace_adapters Demo.fresh /\
  _namespace_folders
    (unmount (env := Demo.env) "lake"
       (mount "lake" (Some Demo.env.(LocalAdapter)) Demo.fresh)) =
    _namespace_folders Demo.fresh.
Proof.
  refine (proj2 (proj2 (unmount_absorbs (env := Demo.env) "lake" Demo.fresh))
            _ eq_refl eq_refl (Some Demo.env.(LocalAdapter))).
  discriminate.
Defined.

Lemma unmount_frame_witness :
  OrderedDict.get "local" (_namespace_adapters (unmount (env := Demo.env) "cdm" Demo.fresh)) =
  OrderedDict.get "local" (_namespace_adapters Demo.fresh).
Proof.
  refine (proj1 (proj1 (proj2 (proj2 (proj2 (proj2 (proj2 (proj2
            (unmount_frame (env := Demo.env) "cdm" Demo.fresh))))))) "local" _)).
  discriminate.
Defined.

Lemma mount_replaces_witness :
  OrderedDict.keys
    (_namespace_adapters (mount "local" (Some Demo.env.(ResourceAdapter)) Demo.fresh)) =
  OrderedDict.keys (_namespace_adapters Demo.fresh).
Proof.
  refine (proj2 (mount_replaces "local" Demo.env.(ResourceAdapter) Demo.fresh) _).
  eexists. reflexivity.
Defined.

Lemma import_last_wins_witness :
  OrderedDict.get "lake"
    (_namespace_adapters (mount_from_config (env := Demo.env) "config" false Demo.fresh).2) =
  Some (adapter_of (env := Demo.env) Demo.lake).
Proof.
  exact (import_last_wins (env := Demo.env) "config" false "lake" Demo.fresh eq_refl).
Defined.

Lemma import_settings_witness :
  default_namespace (mount_from_config (env := Demo.env) "config" false Demo.fresh).2 =
    Some "lake" /\
  app_id (mount_from_config (env := Demo.env) "config" false Demo.fresh).2 = Some "app" /\
  exists entries,
    logger (mount_from_config (env := Demo.env) "config" false Demo.fresh).2 =
      (logger Demo.fresh ++ entries)%list /\
    List.length entries = 1%nat /\
    Forall (fun e => ~ is_warning e) entries.
Proof.
  exact (proj1 (import_settings (env := Demo.env) "config" false Demo.fresh) eq_refl).
Defined.

Lemma mount_exports_witness :
  exists adapters_array,
    (fetch_config_loop (env := Demo.env)
       (_namespace_adapters (mount "local" (Some Demo.env.(GithubAdapter)) Demo.fresh)) []
       (mount "local" (Some Demo.env.(GithubAdapter)) Demo.fresh)).1 = Ok adapters_array /\
    In (JObj (export_entry (env := Demo.env) ("local", Demo.env.(GithubAdapter))))
      adapters_array.
Proof.
  refine (proj2 (mount_exports (env := Demo.env)) Demo.fresh "local"
            Demo.env.(GithubAdapter) _ eq_refl).
  discriminate.
Defined.
